(** * batch-pddl-generator: the instance-generation pipeline

    A shallow embedding of [src/domains.py] and [src/generate-instances.py]
    and the properties of the pipeline that the design document states.

    - Python values are a small tagged union (ints as [Z], floats as IEEE-754
      binary64 through [SpecFloat], strings).
    - A configuration is a Python [dict]: a [gmap string value] living in a
      heap of dict objects, so that [dict.copy] and in-place updates are what
      they are in the source.
    - Exceptions are an error monad; code with effects (logging, printing,
      files, external processes) runs in a state-and-error monad over an
      explicit interpreter state. *)

From Stdlib Require Import ZArith String Ascii List Lia Bool.
From Stdlib Require Import Floats.SpecFloat.
From stdpp Require Import gmap strings list pretty.

Local Open Scope string_scope.
Local Open Scope Z_scope.

(* ===================================================================== *)
(** * IEEE-754 binary64, as Python's [float] and NumPy's [float64] *)
(* ===================================================================== *)

Module Float64.

Definition prec : Z := 53.
Definition emax : Z := 1024.

Abbreviation float := spec_float.

Definition add : float -> float -> float := SFadd prec emax.
Definition sub : float -> float -> float := SFsub prec emax.
Definition mul : float -> float -> float := SFmul prec emax.
Definition div : float -> float -> float := SFdiv prec emax.
Definition ltb : float -> float -> bool := SFltb.
Definition leb : float -> float -> bool := SFleb.
Definition eqb : float -> float -> bool := SFeqb.

(** The double nearest to the integer [z] (ties to even). *)
Definition of_Z (z : Z) : float := binary_normalize prec emax z 0 false.

(** A decimal literal [n / 10^k] written in the source, e.g. [0.3] is
    [lit 3 1]: the division of two exactly representable integers is
    correctly rounded, which is how a literal is read. *)
Definition lit (n : Z) (k : nat) : float := div (of_Z n) (of_Z (10 ^ Z.of_nat k)).

Definition is_finite (x : float) : bool :=
  match x with
  | S754_zero _ | S754_finite _ _ _ => true
  | _ => false
  end.

(** The signed integer mantissa and the exponent of a finite value. *)
Definition signed (s : bool) (m : Z) : Z := if s then - m else m.

(** Truncation toward zero (C's cast, Python's [int(x)] on a finite float). *)
Definition trunc (x : float) : option Z :=
  match x with
  | S754_zero _ => Some 0
  | S754_finite s m e =>
      Some (if 0 <=? e then signed s (Z.pos m * 2 ^ e)
            else signed s (Z.pos m / 2 ^ (- e)))
  | _ => None
  end.

(** [ceil], as an integer. *)
Definition ceil (x : float) : option Z :=
  match x with
  | S754_zero _ => Some 0
  | S754_finite s m e =>
      Some (if 0 <=? e then signed s (Z.pos m * 2 ^ e)
            else - ((- signed s (Z.pos m)) / 2 ^ (- e)))
  | _ => None
  end.

(** C's [rint] in the default rounding mode: the nearest integral value,
    ties to even; the sign is kept on a zero result. *)
Definition rint (x : float) : float :=
  match x with
  | S754_finite s m e =>
      if 0 <=? e then x
      else
        let d := 2 ^ (- e) in
        let q := Z.pos m / d in
        let r := Z.pos m mod d in
        let q' := match 2 * r ?= d with
                  | Lt => q
                  | Gt => q + 1
                  | Eq => if Z.even q then q else q + 1
                  end in
        binary_normalize prec emax (signed s q') 0 s
  | _ => x
  end.

(** Exact comparison of an integer with a float, as CPython's
    [float_richcompare] does it; [None] on a NaN. *)
Definition compare_Z (z : Z) (x : float) : option comparison :=
  match x with
  | S754_nan => None
  | S754_infinity s => Some (if s then Gt else Lt)
  | S754_zero _ => Some (z ?= 0)
  | S754_finite s m e =>
      Some (if 0 <=? e then z ?= signed s (Z.pos m) * 2 ^ e
            else z * 2 ^ (- e) ?= signed s (Z.pos m))
  end.

End Float64.

(* ===================================================================== *)
(** * Python values, exceptions and built-ins *)
(* ===================================================================== *)

Module Py.

Inductive value :=
| VInt (z : Z)
| VFloat (x : Float64.float)
| VStr (s : string).

(** An f-string, kept as its parts: the literal text and the values
    substituted into it. *)
Inductive fpart :=
| Lit (text : string)
| Fmt (v : value).

(** The exceptions the modelled code raises or handles.  [Unmodelled]
    marks a Python behaviour that lies outside the embedded fragment (it
    is no Python exception); no theorem below is about a run that ends in
    it. *)
Inductive exn :=
| KeyError (key : string)
| IndexError
| TypeError
| ValueError
| OverflowError
| ZeroDivisionError
| IllegalConfiguration (msg : list fpart)
| CalledProcessError (returncode : Z)
| TimeoutExpired
| FileNotFoundError (path : string)
| NotADirectoryError (path : string)
| IsADirectoryError (path : string)
| OSError (what : string)
| Unmodelled (what : string).

Inductive result (A : Type) :=
| Ok (a : A)
| Raise (e : exn).
Arguments Ok {A} a.
Arguments Raise {A} e.

#[export] Instance result_ret : MRet result := fun _ a => Ok a.
#[export] Instance result_bind : MBind result := fun _ _ f r =>
  match r with
  | Ok a => f a
  | Raise e => Raise e
  end.

Definition is_ok {A} (r : result A) : bool :=
  match r with Ok _ => true | Raise _ => false end.

(** [float(z)] for an int: [PyLong_AsDouble]. *)
Definition float_of_int (z : Z) : result Float64.float :=
  let x := Float64.of_Z z in
  if Float64.is_finite x then Ok x else Raise OverflowError.

(** The three-way comparison behind [<], [>], [<=], [>=] on numbers and
    strings; [Ok None] is the unordered case (a NaN operand). *)
Definition py_compare (a b : value) : result (option comparison) :=
  match a, b with
  | VInt x, VInt y => Ok (Some (x ?= y))
  | VFloat x, VFloat y => Ok (SFcompare x y)
  | VInt x, VFloat y => Ok (Float64.compare_Z x y)
  | VFloat x, VInt y => Ok (CompOpp <$> Float64.compare_Z y x)
  | VStr x, VStr y => Ok (Some (String.compare x y))
  | _, _ => Raise TypeError
  end.

Definition py_lt (a b : value) : result bool :=
  c ← py_compare a b; mret (match c with Some Lt => true | _ => false end).
Definition py_gt (a b : value) : result bool :=
  c ← py_compare a b; mret (match c with Some Gt => true | _ => false end).
Definition py_le (a b : value) : result bool :=
  c ← py_compare a b;
  mret (match c with Some Lt | Some Eq => true | _ => false end).

(** [a == b]: never raises; values of unrelated types are unequal. *)
Definition py_eq (a b : value) : bool :=
  match a, b with
  | VInt x, VInt y => x =? y
  | VFloat x, VFloat y => Float64.eqb x y
  | VInt x, VFloat y =>
      match Float64.compare_Z x y with Some Eq => true | _ => false end
  | VFloat x, VInt y =>
      match Float64.compare_Z y x with Some Eq => true | _ => false end
  | VStr x, VStr y => String.eqb x y
  | _, _ => false
  end.

(** [min(a, b)] keeps [a] unless [b < a]; [max(a, b)] keeps [a] unless
    [b > a]. *)
Definition py_min (a b : value) : result value :=
  lt ← py_lt b a; mret (if lt : bool then b else a).
Definition py_max (a b : value) : result value :=
  gt ← py_gt b a; mret (if gt : bool then b else a).

Fixpoint repeat_string (n : nat) (s : string) : string :=
  match n with
  | O => EmptyString
  | S n' => String.append s (repeat_string n' s)
  end.

Definition py_mul (a b : value) : result value :=
  match a, b with
  | VInt x, VInt y => Ok (VInt (x * y))
  | VFloat x, VFloat y => Ok (VFloat (Float64.mul x y))
  | VInt x, VFloat y => x' ← float_of_int x; mret (VFloat (Float64.mul x' y))
  | VFloat x, VInt y => y' ← float_of_int y; mret (VFloat (Float64.mul x y'))
  | VStr s, VInt n | VInt n, VStr s => Ok (VStr (repeat_string (Z.to_nat n) s))
  | _, _ => Raise TypeError
  end.

Definition py_add (a b : value) : result value :=
  match a, b with
  | VInt x, VInt y => Ok (VInt (x + y))
  | VFloat x, VFloat y => Ok (VFloat (Float64.add x y))
  | VInt x, VFloat y => x' ← float_of_int x; mret (VFloat (Float64.add x' y))
  | VFloat x, VInt y => y' ← float_of_int y; mret (VFloat (Float64.add x y'))
  | VStr x, VStr y => Ok (VStr (String.append x y))
  | _, _ => Raise TypeError
  end.

Definition py_sub (a b : value) : result value :=
  match a, b with
  | VInt x, VInt y => Ok (VInt (x - y))
  | VFloat x, VFloat y => Ok (VFloat (Float64.sub x y))
  | VInt x, VFloat y => x' ← float_of_int x; mret (VFloat (Float64.sub x' y))
  | VFloat x, VInt y => y' ← float_of_int y; mret (VFloat (Float64.sub x y'))
  | _, _ => Raise TypeError
  end.

Definition float_truediv (x y : Float64.float) : result value :=
  match y with
  | S754_zero _ => Raise ZeroDivisionError
  | _ => Ok (VFloat (Float64.div x y))
  end.

(** [a / b].  The quotient of two ints is modelled where both convert to
    a double exactly. *)
Definition py_truediv (a b : value) : result value :=
  match a, b with
  | VFloat x, VFloat y => float_truediv x y
  | VInt x, VFloat y => x' ← float_of_int x; float_truediv x' y
  | VFloat x, VInt y => y' ← float_of_int y; float_truediv x y'
  | VInt x, VInt y =>
      if (Z.abs x <=? 2 ^ 53) && (Z.abs y <=? 2 ^ 53)
      then float_truediv (Float64.of_Z x) (Float64.of_Z y)
      else Raise (Unmodelled "int / int beyond 2**53")
  | _, _ => Raise TypeError
  end.

(** [a % b] on ints: the result has the sign of the divisor. *)
Definition py_mod (a b : value) : result value :=
  match a, b with
  | VInt x, VInt y => if y =? 0 then Raise ZeroDivisionError else Ok (VInt (x mod y))
  | VStr _, _ => Raise (Unmodelled "str % args")
  | VFloat _, (VInt _ | VFloat _) | VInt _, VFloat _ => Raise (Unmodelled "float %")
  | _, _ => Raise TypeError
  end.

(** [int(x)]. *)
Definition py_int (a : value) : result value :=
  match a with
  | VInt x => Ok (VInt x)
  | VFloat x =>
      match Float64.trunc x with
      | Some z => Ok (VInt z)
      | None => match x with S754_nan => Raise ValueError | _ => Raise OverflowError end
      end
  | VStr _ => Raise (Unmodelled "int(str)")
  end.

(** [list(range(start, stop, step))]. *)
Definition py_range (start stop step : Z) : result (list Z) :=
  if step =? 0 then Raise ValueError
  else
    let n := if 0 <? step then (stop - start + step - 1) / step
             else (start - stop - step - 1) / (- step) in
    Ok ((fun i : nat => start + Z.of_nat i * step) <$> seq 0 (Z.to_nat n)).

(** [needle in haystack] on strings. *)
Definition str_contains (needle haystack : string) : bool :=
  match index 0 needle haystack with
  | Some _ => true
  | None => false
  end.

End Py.
Import Py.

(* ===================================================================== *)
(** * NumPy: what [get_float] calls, and [linspace] *)
(* ===================================================================== *)

Module Numpy.

(** [np.arange(start, stop, step)] on doubles: the length is
    [ceil((stop - start) / step)]; the first two elements are [start] and
    [start + step], the others are filled as [start + i * delta] with
    [delta] the difference of the first two. *)
Definition arange (start stop step : Float64.float) : result (list Float64.float) :=
  match Float64.ceil (Float64.div (Float64.sub stop start) step) with
  | None => Raise ValueError
  | Some len =>
      let next := Float64.add start step in
      let delta := Float64.sub next start in
      Ok ((fun i : nat =>
             match i with
             | O => start
             | S O => next
             | _ => Float64.add start (Float64.mul (Float64.of_Z (Z.of_nat i)) delta)
             end) <$> seq 0 (Z.to_nat len))
  end.

(** [np.round(values, decimals=d)] for [d > 0]: scale by [10**d], [rint],
    scale back. *)
Definition round_ (values : list Float64.float) (decimals : nat) : list Float64.float :=
  let f := Float64.of_Z (10 ^ Z.of_nat decimals) in
  (fun v => Float64.div (Float64.rint (Float64.mul v f)) f) <$> values.

(** [np.linspace(start, stop, num)] on doubles: [num] evenly spaced
    points with both ends included.  The points are [i * step + start]
    with [step = (stop - start) / (num - 1)], computed as
    [(i / (num - 1)) * (stop - start) + start] when the step underflows to
    zero, and the last point is set to [stop]; one point is [start]; a
    negative [num] raises [ValueError]. *)
Definition linspace (start stop : Float64.float) (num : Z) : result (list Float64.float) :=
  if num <? 0 then Raise ValueError
  else
    let div := num - 1 in
    let delta := Float64.sub stop start in
    let scaled : Float64.float -> Float64.float :=
      if 0 <? div then
        let step := Float64.div delta (Float64.of_Z div) in
        if Float64.eqb step (Float64.of_Z 0)
        then fun y => Float64.mul (Float64.div y (Float64.of_Z div)) delta
        else fun y => Float64.mul y step
      else fun y => Float64.mul y delta in
    Ok ((fun i : nat =>
           if (1 <? num) && (Z.of_nat i =? div) then stop
           else Float64.add (scaled (Float64.of_Z (Z.of_nat i))) start)
          <$> seq 0 (Z.to_nat num)).

End Numpy.

(* ===================================================================== *)
(** * Dict objects and the monad of in-place updates *)
(* ===================================================================== *)

(** A configuration is a Python [dict] from parameter names to values. *)
Abbreviation config := (gmap string value).

Module Dict.

(** A function that receives one dict object [parameters] and reads and
    updates it in place is a state transformer on the contents of that
    object; the updates made before an exception stay. *)
Definition dictM (A : Type) : Type := config -> config * result A.

#[export] Instance dictM_ret : MRet dictM := fun _ a d => (d, Ok a).
#[export] Instance dictM_bind : MBind dictM := fun _ _ f m d =>
  match m d with
  | (d', Ok a) => f a d'
  | (d', Raise e) => (d', Raise e)
  end.

(** [parameters[key]] *)
Definition getitem (key : string) : dictM value := fun d =>
  match d !! key with
  | Some v => (d, Ok v)
  | None => (d, Raise (KeyError key))
  end.

(** [parameters[key] = v] *)
Definition setitem (key : string) (v : value) : dictM unit := fun d =>
  (<[key := v]> d, Ok tt).

Definition raise {A} (e : exn) : dictM A := fun d => (d, Raise e).

(** An expression that does not touch the dict. *)
Definition pure {A} (r : result A) : dictM A := fun d => (d, r).

End Dict.
Import Dict.

(* ===================================================================== *)
(** * ConfigSpace: parameter descriptors and the grid *)
(* ===================================================================== *)

Module ConfigSpace.

(** The four hyperparameter classes [domains.py] constructs, with the
    constructor arguments it passes. *)
Inductive hyperparameter :=
| UniformIntegerHyperparameter (name : string) (lower upper default_value : Z) (log : bool)
| UniformFloatHyperparameter (name : string) (lower upper default_value : Float64.float) (log : bool)
| CategoricalHyperparameter (name : string) (choices : list value) (default_value : value)
| Constant (name : string) (v : value).

Definition hp_name (hp : hyperparameter) : string :=
  match hp with
  | UniformIntegerHyperparameter n _ _ _ _ => n
  | UniformFloatHyperparameter n _ _ _ _ => n
  | CategoricalHyperparameter n _ _ => n
  | Constant n _ => n
  end.

(** The constructors of the two ranges, which belong to the library and
    not to this repository, check their arguments: the bounds must be
    strictly ordered, a logarithmic scale needs a lower bound above zero,
    and the default must lie within the bounds; otherwise they raise
    [ValueError].  (Hence [Constant("size", 3)] in the registry, where a
    range from 3 to 3 is commented out.) *)
Definition UniformIntegerHyperparameter_init (name : string) (lower upper default_value : Z)
    (log : bool) : result hyperparameter :=
  if upper <=? lower then Raise ValueError
  else if log && (lower <=? 0) then Raise ValueError
  else if (default_value <? lower) || (upper <? default_value) then Raise ValueError
  else Ok (UniformIntegerHyperparameter name lower upper default_value log).

Definition UniformFloatHyperparameter_init (name : string)
    (lower upper default_value : Float64.float) (log : bool) : result hyperparameter :=
  if Float64.leb upper lower then Raise ValueError
  else if log && Float64.leb lower (Float64.of_Z 0) then Raise ValueError
  else if Float64.ltb default_value lower || Float64.ltb upper default_value
       then Raise ValueError
  else Ok (UniformFloatHyperparameter name lower upper default_value log).


(** The cartesian product of named axes, the first axis varying slowest. *)
Fixpoint product (axes : list (string * list value)) : list config :=
  match axes with
  | [] => [∅]
  | (name, values) :: rest =>
      v ← values; (fun c : config => <[name := v]> c) <$> product rest
  end.

(** One named axis per parameter, in the order of the parameters, with
    the values [values_of] gives. *)
Fixpoint axes_of (values_of : hyperparameter -> result (list value))
    (cs : list hyperparameter) : result (list (string * list value)) :=
  match cs with
  | [] => Ok []
  | hp :: rest =>
      vs ← values_of hp;
      axes ← axes_of values_of rest;
      mret ((hp_name hp, vs) :: axes)
  end.

(** [np.round(grid_points).astype(int)] *)
Fixpoint to_ints (grid_points : list Float64.float) : result (list Z) :=
  match grid_points with
  | [] => Ok []
  | p :: rest =>
      match Float64.trunc (Float64.rint p) with
      | Some z => zs ← to_ints rest; mret (z :: zs)
      | None => Raise (Unmodelled "a grid point that is not finite")
      end
  end.

(** The first point is not below the lower bound and the last one not
    above the upper bound, whatever the rounding did:
    [grid_points[0] = max(grid_points[0], lower)] and
    [grid_points[-1] = min(grid_points[-1], upper)]. *)
Definition clip_ends {A} (at_least at_most : A -> A) (grid_points : list A)
  : result (list A) :=
  match grid_points with
  | [] => Raise IndexError
  | _ => Ok (alter at_most (length grid_points - 1)%nat (alter at_least 0%nat grid_points))
  end.

(** The values one parameter contributes to the grid, as the library
    function [ConfigSpace.util.generate_grid] (not part of this
    repository) determines them: the choices of a categorical parameter,
    the value of a constant, and for a range the [num_steps_dict[name]]
    evenly spaced points from [lower] to [upper], rounded to ints for an
    integer range.  A range whose name is not in [num_steps_dict] raises
    [ValueError].  Ranges on a logarithmic scale are left out. *)
Definition value_set (num_steps_dict : gmap string Z) (hp : hyperparameter)
  : result (list value) :=
  match hp with
  | CategoricalHyperparameter _ choices _ => Ok choices
  | Constant _ v => Ok [v]
  | UniformFloatHyperparameter name lower upper _ log =>
      if log then Raise (Unmodelled "grid of a range on a logarithmic scale")
      else
        match num_steps_dict !! name with
        | None => Raise ValueError
        | Some num_steps =>
            grid_points ← Numpy.linspace lower upper num_steps;
            grid_points ← clip_ends (fun p => if Float64.ltb p lower then lower else p)
                            (fun p => if Float64.ltb upper p then upper else p)
                            grid_points;
            mret (VFloat <$> (grid_points : list Float64.float))
        end
  | UniformIntegerHyperparameter name lower upper _ log =>
      if log then Raise (Unmodelled "grid of a range on a logarithmic scale")
      else
        match num_steps_dict !! name with
        | None => Raise ValueError
        | Some num_steps =>
            grid_points ← Numpy.linspace (Float64.of_Z lower) (Float64.of_Z upper) num_steps;
            grid_points ← to_ints grid_points;
            grid_points ← clip_ends (Z.max lower) (Z.min upper) grid_points;
            mret (VInt <$> (grid_points : list Z))
        end
  end.

(** [generate_grid(cs, num_steps_dict)], the library function that [main]
    calls: the cartesian product of the values of the parameters, none
    excluded.  The configurations are listed here with the parameters in
    the order of [cs]; the properties below hold of the grid as a list,
    in whatever order the library lists it.  The grid of a space without
    parameters is left out. *)
Definition generate_grid (cs : list hyperparameter) (num_steps_dict : gmap string Z)
  : result (list config) :=
  match cs with
  | [] => Raise (Unmodelled "grid of a space without parameters")
  | _ => axes ← axes_of (value_set num_steps_dict) cs; mret (product axes)
  end.

End ConfigSpace.
Import ConfigSpace.

(* ===================================================================== *)
(** * The interpreter state: dict objects, files, and what the run did *)
(* ===================================================================== *)

Module Interp.

(** Files and directories, by path.  A path is the string that names it;
    [p / q] joins with a slash (paths are taken as already normalised). *)
Inductive node :=
| Dir
| File (content : string).

Abbreviation filesystem := (gmap string node).

Definition path_join (p q : string) : string := String.append p (String.append "/" q).

(** What [print] wrote, by the statement that wrote it. *)
Inductive output_line :=
| Out_parameters (attributes : list hyperparameter)
    (* print(f"Parameters: {dict(cs)}") *)
| Out_number_of_configurations (n : Z).
    (* print(f"Number of configurations: {len(grid)}") *)

Inductive log_level := INFO | WARNING | ERROR.

(** The records handed to [logging], by the statement that made them. *)
Inductive log_message :=
| Skipping_illegal_configuration (cfg : config) (err : list fpart)
| Create_instance (cfg : config) (seed : Z)
| Failed_to_generate_task (err : exn).

(** Calls whose number and order the properties are about. *)
Inductive call :=
| adapt_parameters_call (domain_name : string) (parameters : config)
| generate_input_files_call (domain_name : string) (cfg : config) (seed : Z)
| collect_task_call (domain_name : string) (cfg : config) (seed : Z) (srcdir : string)
| rmtree_call (path : string)
| subprocess_run_call (command : list string) (stdout : option string) (timeout : option Z)
| move_call (src dst : string).

Inductive event :=
| Print (line : output_line)
| Log (level : log_level) (msg : log_message)
| Call (c : call).

(** [heap] holds the dict objects, addressed by their index; [trace] is
    in the order of execution. *)
Record state := State {
  heap : list config;
  fs : filesystem;
  trace : list event
}.

Definition py (A : Type) : Type := state -> state * result A.

#[export] Instance py_ret : MRet py := fun _ a st => (st, Ok a).
#[export] Instance py_bind : MBind py := fun _ _ f m st =>
  match m st with
  | (st', Ok a) => f a st'
  | (st', Raise e) => (st', Raise e)
  end.

Definition throw {A} (e : exn) : py A := fun st => (st, Raise e).

(** [try: m except ...]: the outcome of [m] as a value. *)
Definition try {A} (m : py A) : py (result A) := fun st =>
  let (st', r) := m st in (st', Ok r).

Definition emit (e : event) : py unit := fun st =>
  (State (heap st) (fs st) (trace st ++ [e]), Ok tt).

(** A new dict object with the given contents; its reference. *)
Definition alloc (d : config) : py nat := fun st =>
  (State (heap st ++ [d]) (fs st) (trace st), Ok (length (heap st))).

(** The contents of the dict object at [l]. *)
Definition deref (l : nat) : py config := fun st =>
  match heap st !! l with
  | Some d => (st, Ok d)
  | None => (st, Raise (Unmodelled "dangling reference"))
  end.

(** Run a function on the dict object at [l]: its updates are made to
    that object. *)
Definition on_dict {A} (l : nat) (m : dictM A) : py A := fun st =>
  match heap st !! l with
  | Some d =>
      let (d', r) := m d in
      (State (<[l := d']> (heap st)) (fs st) (trace st), r)
  | None => (st, Raise (Unmodelled "dangling reference"))
  end.

(** [parameters.copy()] *)
Definition dict_copy (l : nat) : py nat := d ← deref l; alloc d.

(** An operation on the file system alone. *)
Definition on_fs {A} (f : filesystem -> filesystem * result A) : py A := fun st =>
  let (fs', r) := f (fs st) in (State (heap st) fs' (trace st), r).

(** [for x in xs: body(x)]; an exception ends the loop. *)
Fixpoint for_each {A} (xs : list A) (body : A -> py unit) : py unit :=
  match xs with
  | [] => mret tt
  | x :: rest => body x ;; for_each rest body
  end.

(** [shutil.move(src, dst)] of a regular file onto a path that is no
    directory: a rename. *)
Definition shutil_move (src dst : string) : py unit :=
  emit (Call (move_call src dst)) ;;
  on_fs (fun fs =>
    match fs !! src with
    | None => (fs, Raise (FileNotFoundError src))
    | Some Dir => (fs, Raise (Unmodelled "move of a directory"))
    | Some (File c) =>
        match fs !! dst with
        | Some Dir => (fs, Raise (Unmodelled "move into a directory"))
        | _ => (<[dst := File c]> (delete src fs), Ok tt)
        end
    end).

(** [open(path, "w")]: the file is created or truncated.  (That the
    parent directory exists is not checked.) *)
Definition open_w (path : string) : py unit :=
  on_fs (fun fs =>
    match fs !! path with
    | Some Dir => (fs, Raise (IsADirectoryError path))
    | _ => (<[path := File EmptyString]> fs, Ok tt)
    end).

Definition below (root p : string) : bool :=
  String.eqb root p || String.prefix (String.append root "/") p.

(** [shutil.rmtree(path, ignore_errors=False)] *)
Definition shutil_rmtree (path : string) : py unit :=
  emit (Call (rmtree_call path)) ;;
  on_fs (fun fs =>
    match fs !! path with
    | None => (fs, Raise (FileNotFoundError path))
    | Some (File _) => (fs, Raise (NotADirectoryError path))
    | Some Dir => (filter (fun kv => negb (below path kv.1)) fs, Ok tt)
    end).

End Interp.
Import Interp.

(* ===================================================================== *)
(** * domains.py *)
(* ===================================================================== *)

Module Domains.

Definition TMP_PROBLEM : string := "tmp-problem.pddl".
Definition TMP_DOMAIN : string := "tmp-domain.pddl".

(** [choices[0]] *)
Definition first {A} (choices : list A) : result A :=
  match choices with
  | x :: _ => Ok x
  | [] => Raise IndexError
  end.

Definition get_int (name : string) (lower upper : Z) (log : bool) (step_size : Z)
  : result hyperparameter :=
  if step_size =? 1 then
    UniformIntegerHyperparameter_init name lower upper lower log
  else
    r ← py_range lower (upper + 1) step_size;
    let choices := VInt <$> (r : list Z) in
    d ← first choices;
    mret (CategoricalHyperparameter name choices d).

(** The call sites pass floats for [lower], [upper] and [precision]. *)
Definition get_float (name : string) (lower upper : Float64.float) (log : bool)
    (precision : option Float64.float) : result hyperparameter :=
  match precision with
  | Some precision =>
      gt ← py_gt (VFloat precision) (VInt 0);
      if gt : bool then
        values ← Numpy.arange lower
                   (Float64.add upper (Float64.div precision (Float64.of_Z 2)))
                   precision;
        let values := Numpy.round_ values 10 in
        let values := List.filter (fun v => Float64.leb lower v && Float64.leb v upper) values in
        d ← first values;
        mret (CategoricalHyperparameter name (VFloat <$> values) (VFloat d))
      else
        UniformFloatHyperparameter_init name lower upper lower log
  | None => UniformFloatHyperparameter_init name lower upper lower log
  end.

Definition get_enum (name : string) (choices : list value) (default_value : option value)
  : result hyperparameter :=
  match default_value with
  | None => d ← first choices; mret (CategoricalHyperparameter name choices d)
  | Some d => mret (CategoricalHyperparameter name choices d)
  end.

(** [class Domain] *)
Record Domain := {
  name : string;
  attributes : list hyperparameter;
  command_template : string;
  _adapt_parameters : option (dictM unit)
}.

(** The list display [[get_int(...), ...]]: the elements are evaluated
    in order, the first exception ends it. *)
Fixpoint list_display {A} (items : list (result A)) : result (list A) :=
  match items with
  | [] => Ok []
  | r :: rest => x ← r; xs ← list_display rest; mret (x :: xs)
  end.

(** [Domain(name, generator_command, attributes, adapt_parameters)] *)
Definition Domain_init (name generator_command : string)
    (attributes : list (result hyperparameter))
    (adapt_parameters : option (dictM unit)) : result Domain :=
  attrs ← list_display attributes;
  mret {| name := name; attributes := attrs;
          command_template := generator_command;
          _adapt_parameters := adapt_parameters |}.

(** [Domain.adapt_parameters(self, parameters)]: the rule, when there is
    one, runs on a copy and the copy is returned. *)
Definition adapt_parameters (self : Domain) (parameters : nat) : py nat :=
  d ← deref parameters;
  emit (Call (adapt_parameters_call (name self) d)) ;;
  match _adapt_parameters self with
  | Some rule =>
      copy ← dict_copy parameters;
      on_dict copy rule ;;
      mret copy
  | None => mret parameters
  end.

Definition uses_per_instance_domain_file (self : Domain) : bool :=
  str_contains TMP_DOMAIN (command_template self).

Section GenerateProblem.

(** The external generator: what running [command] under [timeout]
    does to the files, and how it ends. *)
Inductive process_end :=
| Exited (returncode : Z) (stdout : string)
| Timed_out (stdout : string).

Variable run_process : list string -> option Z -> filesystem -> filesystem * process_end.

(** [subprocess.run(command, stdout=f, check=True, timeout=timeout)];
    [stdout] is the path of the open file [f], when one is passed. *)
Definition subprocess_run (command : list string) (stdout : option string)
    (timeout : option Z) : py unit :=
  emit (Call (subprocess_run_call command stdout timeout)) ;;
  on_fs (fun fs =>
    let (fs', e) := run_process command timeout fs in
    let written := match e with Exited _ s | Timed_out s => s end in
    let fs'' := match stdout with
                | Some f => <[f := File written]> fs'
                | None => fs'
                end in
    match e with
    | Exited 0 _ => (fs'', Ok tt)
    | Exited rc _ => (fs'', Raise (CalledProcessError rc))
    | Timed_out _ => (fs'', Raise TimeoutExpired)
    end).

(** [Domain.generate_problem(self, command, problem_file, domain_file, timeout)] *)
Definition generate_problem (self : Domain) (command : list string)
    (problem_file domain_file : string) (timeout : option Z) : py unit :=
  (if str_contains TMP_PROBLEM (command_template self) then
     subprocess_run command None timeout ;;
     shutil_move TMP_PROBLEM problem_file
   else
     open_w problem_file ;;
     subprocess_run command (Some problem_file) timeout) ;;
  if uses_per_instance_domain_file self then
    shutil_move TMP_DOMAIN domain_file
  else mret tt.

End GenerateProblem.

Definition adapt_parameters_barman : dictM unit :=
  shots ← getitem "shots";
  cocktails ← getitem "cocktails";
  lt ← pure (py_lt shots cocktails);
  if lt : bool then raise (IllegalConfiguration [Lit "we need shots >= cocktails"])
  else mret tt.

Definition adapt_parameters_floortile : dictM unit :=
  robots ← getitem "robots";
  columns ← getitem "columns";
  m ← pure (py_min robots columns);
  setitem "robots" m.

Definition adapt_parameters_freecell : dictM unit :=
  initial_stacks ← getitem "initial_stacks";
  columns ← getitem "columns";
  gt ← pure (py_gt initial_stacks columns);
  if gt : bool then raise (IllegalConfiguration [Lit "we need initial_stacks <= columns"])
  else mret tt.

Definition adapt_parameters_grid : dictM unit :=
  (* parameters["shapes"] = min(x * y - 1, shapes) *)
  x ← getitem "x";
  y ← getitem "y";
  xy ← pure (py_mul x y);
  bound ← pure (py_sub xy (VInt 1));
  shapes ← getitem "shapes";
  m ← pure (py_min bound shapes);
  setitem "shapes" m ;;
  (* parameters["keys"] = min(x * y - 1, shapes + extra_keys) *)
  x ← getitem "x";
  y ← getitem "y";
  xy ← pure (py_mul x y);
  bound ← pure (py_sub xy (VInt 1));
  shapes ← getitem "shapes";
  extra_keys ← getitem "extra_keys";
  wanted ← pure (py_add shapes extra_keys);
  m ← pure (py_min bound wanted);
  setitem "keys" m ;;
  (* parameters["locks"] = int(x * y * percentage_cells_locked) *)
  x ← getitem "x";
  y ← getitem "y";
  xy ← pure (py_mul x y);
  percentage_cells_locked ← getitem "percentage_cells_locked";
  cells ← pure (py_mul xy percentage_cells_locked);
  locks ← pure (py_int cells);
  setitem "locks" locks ;;
  (* parameters["locks"] = max(locks, shapes) *)
  locks ← getitem "locks";
  shapes ← getitem "shapes";
  m ← pure (py_max locks shapes);
  setitem "locks" m.

Definition adapt_parameters_hiking : dictM unit :=
  cars ← getitem "cars";
  couples ← getitem "couples";
  needed ← pure (py_add couples (VInt 1));
  lt ← pure (py_lt cars needed);
  if lt : bool then raise (IllegalConfiguration [Lit "we need cars >= couples + 1"])
  else mret tt.

Definition adapt_parameters_maintenance : dictM unit :=
  days ← getitem "days";
  planes ← pure (py_mul (VInt 3) days);
  setitem "planes" planes ;;
  setitem "mechanics" (VInt 1) ;;
  setitem "cities" (VInt 3) ;;
  setitem "visits" (VInt 5).

Definition adapt_parameters_spanner : dictM unit :=
  spanners ← getitem "spanners";
  nuts ← getitem "nuts";
  lt ← pure (py_lt spanners nuts);
  if lt : bool then raise (IllegalConfiguration [Lit "we need spanners >= nuts"])
  else mret tt.

Definition adapt_parameters_sokoban : dictM unit :=
  grid_size ← getitem "grid_size";
  small ← pure (py_le grid_size (VInt 5));
  bound ← (if small : bool then mret (VInt 2)
           else
             sq ← pure (py_mul grid_size grid_size);
             five ← pure (py_mul (VInt 5) grid_size);
             d ← pure (py_sub sq five);
             s ← pure (py_add d (VInt 6));
             pure (py_truediv s (VFloat (Float64.lit 90 1))));
  boxes ← getitem "boxes";
  gt ← pure (py_gt boxes bound);
  if gt : bool then raise (IllegalConfiguration [Lit "we need boxes <= "; Fmt bound])
  else mret tt.

Definition adapt_parameters_tetris : dictM unit :=
  rows ← getitem "rows";
  r ← pure (py_mod rows (VInt 2));
  if py_eq r (VInt 1) then raise (IllegalConfiguration [Lit "number of rows must be even"])
  else mret tt.

Definition adapt_parameters_tidybot : dictM unit :=
  mintablesize ← getitem "mintablesize";
  maxtablesize ← getitem "maxtablesize";
  gt ← pure (py_gt mintablesize maxtablesize);
  if gt : bool then raise (IllegalConfiguration [Lit "mintablesize must be <= maxtablesize"])
  else mret tt.

(** The registry.  [get_int] and [get_float] are written with all their
    arguments, the defaults being [log=False], [step_size=1]. *)
Definition DOMAINS : result (list Domain) :=
  list_display [
    Domain_init "agricola"
      "GenAgricola.py {stages} {seed} --num_workers {workers} {all_workers_flag}"
      [ get_int "stages" 3 20 false 1;
        get_int "workers" 3 20 false 1;
        get_enum "all_workers_flag" [VStr EmptyString; VStr "--must_create_workers"]
          (Some (VStr EmptyString)) ]
      None;
    Domain_init "barman"
      "barman-generator.py {cocktails} {ingredients} {shots} {seed}"
      [ get_int "cocktails" 1 10 false 1;
        get_int "shots" 1 5 false 1;
        get_int "ingredients" 2 6 false 1 ]
      (Some adapt_parameters_barman);
    Domain_init "blocksworld"
      "blocksworld 4 {n} {seed}"
      [ get_int "n" 2 100 false 1 ]
      None;
    Domain_init "briefcaseworld"
      "briefcaseworld -o {objects} -s {seed}"
      [ get_int "objects" 1 100 false 1 ]
      None;
    Domain_init "childsnack"
      "child-snack-generator.py pool {seed} {children} {trays} {gluten_factor} {constrainedness}"
      [ get_int "children" 2 5 false 1;
        get_float "constrainedness" (Float64.lit 10 1) (Float64.lit 20 1) false
          (Some (Float64.lit 5 1));
        get_int "trays" 1 3 false 1;
        get_float "gluten_factor" (Float64.lit 2 1) (Float64.lit 8 1) false
          (Some (Float64.lit 2 1)) ]
      None;
    Domain_init "depots"
      "depots -e {depots} -i {distributors} -t {trucks} -p {pallets} -h {hoists} -c {crates} -s {seed}"
      [ get_int "depots" 1 3 false 1;
        get_int "distributors" 2 3 false 1;
        get_int "trucks" 2 4 false 1;
        get_int "pallets" 3 8 false 1;
        get_int "hoists" 3 8 false 1;
        get_int "crates" 2 7 false 1 ]
      None;
    Domain_init "driverlog"
      "dlgen {seed} {roadjunctions} {drivers} {packages} {trucks}"
      [ get_int "drivers" 1 3 false 1;
        get_int "packages" 1 3 false 1;
        get_int "roadjunctions" 2 6 false 1;
        get_int "trucks" 1 5 false 1 ]
      None;
    Domain_init "ferry"
      "ferry -l {locations} -c {cars} -s {seed}"
      [ get_int "locations" 1 30 false 1;
        get_int "cars" 1 30 false 1 ]
      None;
    Domain_init "floortile"
      "floortile-generator.py name {rows} {columns} {robots} seq {seed}"
      [ get_int "rows" 2 6 false 1;
        get_int "columns" 2 6 false 1;
        get_int "robots" 1 6 false 1 ]
      (Some adapt_parameters_floortile);
    Domain_init "freecell"
      (String.append
         "freecell -f {cells} -c {columns} -s 4 -0 {suite_size} -1 {suite_size} "
         "-2 {suite_size} -3 {suite_size} -i {initial_stacks} -r {seed}")
      [ get_int "cells" 2 4 false 1;
        get_int "columns" 3 8 false 1;
        get_int "suite_size" 2 20 false 1;
        get_int "initial_stacks" 1 8 false 1 ]
      (Some adapt_parameters_freecell);
    Domain_init "fridge"
      "fridge -f {fridges} -s {screws} -r {seed}"
      [ get_int "fridges" 1 30 false 1;
        get_int "screws" 1 30 false 1 ]
      None;
    Domain_init "grid"
      "generate.py {x} {y} --shapes {shapes} --keys {keys} --locks {locks} --prob-goal {prob_key_in_goal} --seed {seed}"
      [ get_int "x" 2 5 false 1;
        get_int "y" 2 5 false 1;
        get_float "prob_key_in_goal" (Float64.lit 5 1) (Float64.lit 10 1) false
          (Some (Float64.lit 5 1));
        get_int "shapes" 1 2 false 1;
        get_int "extra_keys" 1 2 false 1;
        get_float "percentage_cells_locked" (Float64.lit 3 1) (Float64.lit 9 1) false
          (Some (Float64.lit 3 1)) ]
      (Some adapt_parameters_grid);
    Domain_init "hiking"
      "generator.py {couples} {cars} {places} {seed}"
      [ get_int "couples" 1 5 false 1;
        get_int "places" 2 10 false 1;
        get_int "cars" 1 5 false 1 ]
      (Some adapt_parameters_hiking);
    Domain_init "maintenance"
      "maintenance {days} {planes} {mechanics} {cities} {visits} {seed}"
      [ get_int "days" 60 300 false 20 ]
      (Some adapt_parameters_maintenance);
    Domain_init "movie"
      "movie -n {snacks}"
      [ get_int "snacks" 1 100 false 1 ]
      None;
    Domain_init "mprime"
      "mprime -l {locations} -f {maxfuel} -s {maxspace} -v {vehicles} -c {cargos} -r {seed}"
      [ get_enum "locations" (VInt <$> [3; 4; 5; 6; 8; 10]) None;
        get_enum "maxfuel" (VInt <$> [3; 4; 5; 6; 8; 10]) None;
        get_enum "maxspace" (VInt <$> [1; 2; 3]) None;
        get_enum "vehicles" (VInt <$> [1; 2; 3; 4; 6; 8]) None;
        get_enum "cargos" (VInt <$> [1; 2; 3; 4; 5; 6; 8; 10; 12]) None ]
      None;
    Domain_init "mystery"
      "mystery -l {locations} -f {maxfuel} -s {maxspace} -v {vehicles} -c {cargos} -r {seed}"
      [ get_int "locations" 5 25 false 5;
        get_int "maxfuel" 10 15 false 5;
        get_int "maxspace" 2 4 false 2;
        get_int "vehicles" 2 16 false 2;
        get_int "cargos" 5 50 false 5 ]
      None;
    Domain_init "npuzzle"
      "n-puzzle-generator -n {size} -s {seed}"
      [ Ok (Constant "size" (VInt 3)) ]
      None;
    Domain_init "pathways"
      (String.append
         "wrapper.py --seed {seed} --reactions {reactions} --goals {goals} --initial-substances {substances} "
         (String.append TMP_DOMAIN (String.append " " TMP_PROBLEM)))
      [ get_int "reactions" 10 1010 false 50;
        get_int "goals" 10 90 false 10;
        get_int "substances" 10 80 false 10 ]
      None;
    Domain_init "sokoban"
      "random/sokoban-generator-typed -n {grid_size} -b {boxes} -w {walls} -s {seed}"
      [ get_int "grid_size" 5 10 false 1;
        get_int "boxes" 1 10 false 1;
        get_int "walls" 0 10 false 1 ]
      (Some adapt_parameters_sokoban);
    Domain_init "tetris"
      "generator.py {rows} {block_type} {seed}"
      [ get_int "rows" 4 50 false 1;
        get_enum "block_type" [VStr "1"; VStr "2"; VStr "3"; VStr "4"] (Some (VStr "1")) ]
      (Some adapt_parameters_tetris);
    Domain_init "tidybot"
      "gentidy.py {worldsize} {tables} {cupboards} {mintablesize} {maxtablesize} {cupboardsize} {seed}"
      [ get_int "worldsize" 5 15 false 1;
        get_int "tables" 0 10 false 2;
        get_int "cupboards" 1 3 false 1;
        get_int "mintablesize" 1 5 false 2;
        get_int "maxtablesize" 1 5 false 2;
        get_int "cupboardsize" 4 5 false 1 ]
      (Some adapt_parameters_tidybot);
    Domain_init "schedule"
      (String.append "./schedule "
         (String.append "-p {parts} -s {shapes} -c {colors} -w {widths} -o {orientations} "
            (String.append "-Q {prob_cylindrical_goal} -W {prob_color_init} -E {prob_color_goal} "
               "-R {prob_hole_init} -T {prob_hole_goal} -Y {prob_surface_goal} -r {seed}")))
      [ get_int "parts" 1 3 false 1;
        get_int "shapes" 0 1 false 1;
        get_int "colors" 1 2 false 1;
        get_int "widths" 1 2 false 1;
        get_int "orientations" 1 2 false 1;
        get_int "prob_cylindrical_goal" 0 100 true 30;
        get_int "prob_color_init" 0 100 false 30;
        get_int "prob_color_goal" 0 100 false 30;
        get_int "prob_hole_init" 0 100 false 30;
        get_int "prob_hole_goal" 0 100 false 30;
        get_int "prob_surface_goal" 0 100 false 30 ]
      None;
    Domain_init "spanner"
      "spanner-generator.py --seed {seed} {spanners} {nuts} {locations}"
      [ get_int "spanners" 1 5 false 1;
        get_int "nuts" 1 5 false 1;
        get_int "locations" 1 10 false 1 ]
      (Some adapt_parameters_spanner);
    Domain_init "tpp"
      (String.append
         "tpp -s {seed} -m {markets} -p {products} -t {trucks} -d {depots} -l {goods} "
         TMP_PROBLEM)
      [ get_int "products" 2 20 false 1;
        get_int "markets" 1 10 false 1;
        get_int "trucks" 2 10 false 1;
        get_int "depots" 1 10 false 1;
        get_int "goods" 3 10 false 1 ]
      None;
    Domain_init "tsp"
      "tsp -n {locations}"
      [ get_int "locations" 2 20 false 1 ]
      None;
    Domain_init "visitall"
      "grid -x {grid_width} -y {grid_height} -u {unavailable_cells} -r {ratio_goal_cells} -s {seed}"
      [ get_int "grid_width" 2 3 false 1;
        get_int "grid_height" 2 3 false 1;
        get_enum "unavailable_cells" [VInt 0] None;
        get_float "ratio_goal_cells" (Float64.lit 5 1) (Float64.lit 10 1) false
          (Some (Float64.lit 5 1)) ]
      None
  ].

(** [get_domains()[domain_name]]: the last domain of that name, as a dict
    built from the list keeps it. *)
Definition get_domain (domain_name : string) : result Domain :=
  ds ← DOMAINS;
  match List.find (fun d => String.eqb (name d) domain_name) (rev ds) with
  | Some d => Ok d
  | None => Raise (KeyError domain_name)
  end.

End Domains.

(* ===================================================================== *)
(** * generate-instances.py *)
(* ===================================================================== *)

Module GenerateInstances.
Import Domains.

(** The parsed command line ([argparse.Namespace]). *)
Record Namespace := {
  generators_dir : string;
  domain : string;
  destdir : string;
  debug : bool;
  dry_run : bool;
  generator_time_limit : option Z;
  num_random_seeds : Z
}.

(** An expression that raises or returns, with no other effect. *)
Definition eval {A} (r : result A) : py A := fun st => (st, r).

(** [range(n)] *)
Definition range (n : Z) : list Z := Z.of_nat <$> seq 0 (Z.to_nat n).

(** [hasattr(hp, 'step_size')]: none of the hyperparameter classes that
    [domains.py] constructs has such an attribute. *)
Definition has_step_size (hp : hyperparameter) : bool := false.

(** The body of the loop that fills [num_steps_dict], for one
    hyperparameter. *)
Definition num_steps_entry (hp : hyperparameter) (num_steps_dict : gmap string Z)
  : result (gmap string Z) :=
  match hp with
  | UniformIntegerHyperparameter hp_name lower upper _ _ =>
      if has_step_size hp then Raise (Unmodelled "hyperparameter with a step_size")
      else Ok (<[hp_name := upper - lower + 1]> num_steps_dict)
  | UniformFloatHyperparameter _ _ _ _ _ =>
      if has_step_size hp then Raise (Unmodelled "hyperparameter with a step_size")
      else Ok num_steps_dict
  | _ => Ok num_steps_dict
  end.

Fixpoint build_num_steps_dict (cs : list hyperparameter) (num_steps_dict : gmap string Z)
  : result (gmap string Z) :=
  match cs with
  | [] => Ok num_steps_dict
  | hp :: rest => d ← num_steps_entry hp num_steps_dict; build_num_steps_dict rest d
  end.

Section Driver.

(** The two functions of [utils.py] that the driver calls; the module is
    not among the sources.  They act on the files and may raise. *)
Variable generate_input_files :
  string -> Domain -> config -> Z -> string -> option Z ->
  filesystem -> filesystem * result string.
Variable collect_task :
  Domain -> config -> Z -> string -> string -> bool ->
  filesystem -> filesystem * result unit.

Definition generate_task (generators_dir : string) (domain : Domain) (cfg : nat)
    (seed : Z) (tmp_dir output_dir : string) (time_limit : option Z) : py unit :=
  adapted ← try (adapt_parameters domain cfg);
  match adapted with
  | Raise (IllegalConfiguration err) =>
      c ← deref cfg;
      emit (Log WARNING (Skipping_illegal_configuration c err))
  | Raise e => throw e
  | Ok cfg =>
      c ← deref cfg;
      emit (Log INFO (Create_instance c seed)) ;;
      emit (Call (generate_input_files_call (name domain) c seed)) ;;
      generated ← try (on_fs (generate_input_files generators_dir domain c seed tmp_dir time_limit));
      match generated with
      | Raise (CalledProcessError rc) =>
          emit (Log ERROR (Failed_to_generate_task (CalledProcessError rc)))
      | Raise TimeoutExpired =>
          emit (Log ERROR (Failed_to_generate_task TimeoutExpired))
      | Raise e => throw e
      | Ok plan_dir =>
          emit (Call (collect_task_call (name domain) c seed plan_dir)) ;;
          on_fs (collect_task domain c seed plan_dir output_dir false)
      end
  end.

(** [main()], after [parse_args()] has returned [args].  The call
    [utils.setup_logging(args.debug)] configures handlers only. *)
Definition main (args : Namespace) : py unit :=
  domain ← eval (get_domain args.(domain));
  let generators_dir := args.(generators_dir) in
  let destdir := args.(destdir) in
  let tmp_dir := path_join destdir "tmp" in
  let cs := attributes domain in
  emit (Print (Out_parameters cs)) ;;
  num_steps_dict ← eval (build_num_steps_dict cs ∅);
  grid ← eval (generate_grid cs num_steps_dict);
  if args.(dry_run) then mret tt
  else
    for_each grid (fun cfg =>
      cfg ← alloc cfg;
      for_each (range args.(num_random_seeds)) (fun seed =>
        generate_task generators_dir domain cfg seed tmp_dir destdir
          args.(generator_time_limit))) ;;
    shutil_rmtree tmp_dir ;;
    emit (Print (Out_number_of_configurations (Z.of_nat (length grid)))).

End Driver.

End GenerateInstances.

(* ===================================================================== *)
(** * Properties *)
(* ===================================================================== *)

Import Domains GenerateInstances.
Local Open Scope list_scope.

(** ** The registry *)

Definition ferry_attributes : list hyperparameter :=
  [ UniformIntegerHyperparameter "locations" 1 30 1 false;
    UniformIntegerHyperparameter "cars" 1 30 1 false ].

Definition ferry : Domain :=
  {| name := "ferry";
     attributes := ferry_attributes;
     command_template := "ferry -l {locations} -c {cars} -s {seed}";
     _adapt_parameters := None |}.

Definition barman : Domain :=
  {| name := "barman";
     attributes :=
       [ UniformIntegerHyperparameter "cocktails" 1 10 1 false;
         UniformIntegerHyperparameter "shots" 1 5 1 false;
         UniformIntegerHyperparameter "ingredients" 2 6 2 false ];
     command_template := "barman-generator.py {cocktails} {ingredients} {shots} {seed}";
     _adapt_parameters := Some adapt_parameters_barman |}.

Lemma get_domain_ferry : get_domain "ferry" = Ok ferry.
Proof. vm_compute. reflexivity. Qed.

Lemma get_domain_barman : get_domain "barman" = Ok barman.
Proof. vm_compute. reflexivity. Qed.

(** Every entry of the registry is built without an exception, and the
    names are the 27 of the source, in its order. *)
Lemma DOMAINS_names :
  (fun ds : list Domain => name <$> ds) <$> (match DOMAINS with Ok ds => Some ds | Raise _ => None end)
  = Some [ "agricola"; "barman"; "blocksworld"; "briefcaseworld"; "childsnack";
           "depots"; "driverlog"; "ferry"; "floortile"; "freecell"; "fridge";
           "grid"; "hiking"; "maintenance"; "movie"; "mprime"; "mystery";
           "npuzzle"; "pathways"; "sokoban"; "tetris"; "tidybot"; "schedule";
           "spanner"; "tpp"; "tsp"; "visitall" ].
Proof. vm_compute. reflexivity. Qed.

(** ** Float discretisation *)

(** C7.  Discretising the float range [1.0, 2.0] at precision 0.5 (the
    [constrainedness] parameter of childsnack) gives the categorical
    parameter whose choices are exactly 1.0, 1.5 and 2.0, with default 1.0:
    [np.arange] steps from [lower] up to [upper] inclusive, rounding to ten
    decimals leaves the three values as they are, and all three pass the
    filter [lower <= v <= upper]. *)
Theorem C7_get_float_range_1_2_step_half (name : string) (log : bool) :
  let lower := Float64.lit 10 1 in
  let upper := Float64.lit 20 1 in
  let precision := Float64.lit 5 1 in
  let expected := [Float64.of_Z 1; Float64.lit 15 1; Float64.of_Z 2] in
  Numpy.arange lower (Float64.add upper (Float64.div precision (Float64.of_Z 2))) precision
    = Ok expected
  /\ Numpy.round_ expected 10 = expected
  /\ List.filter (fun v => Float64.leb lower v && Float64.leb v upper) expected = expected
  /\ get_float name lower upper log (Some precision)
     = Ok (CategoricalHyperparameter name (VFloat <$> expected) (VFloat (Float64.of_Z 1))).
Proof.
  repeat split; vm_compute; reflexivity.
Qed.

(** The rounding matters where the steps are not exact: for the range
    [0.2, 0.8] at precision 0.2, [np.arange] produces 0.6000000000000001
    as third value, which [np.round] brings back to the double 0.6. *)
Example get_float_gluten_factor :
  Numpy.arange (Float64.lit 2 1) (Float64.add (Float64.lit 8 1) (Float64.div (Float64.lit 2 1) (Float64.of_Z 2)))
    (Float64.lit 2 1)
  = Ok [Float64.lit 2 1; Float64.lit 4 1; S754_finite false 5404319552844596 (-53);
        Float64.lit 8 1]
  /\ Float64.lit 6 1 = S754_finite false 5404319552844595 (-53)
  /\ get_float "gluten_factor" (Float64.lit 2 1) (Float64.lit 8 1) false (Some (Float64.lit 2 1))
     = Ok (CategoricalHyperparameter "gluten_factor"
             (VFloat <$> [Float64.lit 2 1; Float64.lit 4 1; Float64.lit 6 1; Float64.lit 8 1])
             (VFloat (Float64.lit 2 1))).
Proof.
  repeat split; vm_compute; reflexivity.
Qed.

(** ** One call of [Domain.adapt_parameters] *)

(** What the rule of a domain makes of the contents [c] of a dict: the
    contents [c'] of the object it was run on, and whether it raised. *)
Definition rule_on (d : Domain) (c : config) : config * result unit :=
  match _adapt_parameters d with
  | Some rule => rule c
  | None => (c, Ok tt)
  end.

(** The value of [domain.adapt_parameters(c)], as contents. *)
Definition adapted (d : Domain) (c : config) : result config :=
  match rule_on d c with
  | (c', Ok _) => Ok c'
  | (_, Raise e) => Raise e
  end.

Lemma insert_at_end {A} (h : list A) (x y : A) :
  <[length h := y]> (h ++ [x]) = h ++ [y].
Proof.
  rewrite insert_app_r_alt by lia.
  by rewrite Nat.sub_diag.
Qed.

Lemma adapt_parameters_run (d : Domain) (l : nat) (c : config) (st : state) :
  heap st !! l = Some c ->
  adapt_parameters d l st =
    let tr := trace st ++ [Call (adapt_parameters_call (name d) c)] in
    match _adapt_parameters d with
    | None => (State (heap st) (fs st) tr, Ok l)
    | Some rule =>
        (State (heap st ++ [(rule c).1]) (fs st) tr,
         match (rule c).2 with
         | Ok _ => Ok (length (heap st))
         | Raise e => Raise e
         end)
    end.
Proof.
  intros Hl.
  unfold adapt_parameters, dict_copy, deref, emit, alloc, on_dict, mbind, py_bind, mret, py_ret.
  cbn. rewrite Hl. cbn.
  destruct (_adapt_parameters d) as [rule|]; [|done].
  cbn. rewrite Hl. cbn. rewrite lookup_app_r by lia. rewrite Nat.sub_diag. cbn.
  destruct (rule c) as [c' [[]|e]]; cbn; by rewrite insert_at_end.
Qed.

(** ** The caller's mapping is left alone *)

(** C10.  [Domain.adapt_parameters] never mutates the mapping it is given:
    for every domain [d] (with or without a rule), whatever the outcome
    of the rule, the dict object [parameters] holds after the call the
    key-value pairs [c] that it held before.  When there is a rule, it ran on
    a fresh object, which is the one returned.  The same holds across one
    call of [generate_task], so the configuration object of [main] can be
    reused for the next seed. *)
Theorem C10_adapt_parameters_leaves_argument
    (d : Domain) (parameters : nat) (c : config) (st : state)
    (Hc : heap st !! parameters = Some c) :
  heap (adapt_parameters d parameters st).1 !! parameters = Some c
  /\ (forall rule l, _adapt_parameters d = Some rule ->
        (adapt_parameters d parameters st).2 = Ok l ->
        l <> parameters
        /\ heap st !! l = None
        /\ heap (adapt_parameters d parameters st).1 !! l = Some (rule c).1)
  /\ (forall gen coll gens seed tmp out tl,
        heap (generate_task gen coll gens d parameters seed tmp out tl st).1 !! parameters
        = Some c).
Proof.
  pose proof (lookup_lt_Some _ _ _ Hc) as Hlt.
  split; [|split].
  - rewrite (adapt_parameters_run _ _ _ _ Hc).
    destruct (_adapt_parameters d); cbn; [|done].
    by rewrite lookup_app_l.
  - intros rule l Hrule. rewrite (adapt_parameters_run _ _ _ _ Hc), Hrule. cbn.
    destruct (rule c).2; [|done]. intros [= <-].
    split; [lia|]. split.
    + apply lookup_ge_None. lia.
    + rewrite lookup_app_r by lia. by rewrite Nat.sub_diag.
  - intros. unfold generate_task, try, mbind, py_bind.
    rewrite (adapt_parameters_run _ _ _ _ Hc).
    unfold deref, emit, on_fs, throw.
    destruct (_adapt_parameters d) as [rule|]; cbn.
    + destruct (rule c) as [c' [[]|e]]; cbn.
      * rewrite lookup_app_r by lia. rewrite Nat.sub_diag. cbn.
        destruct (gen _ _ _ _ _ _ _) as [fs1 [plan|e]]; cbn.
        -- destruct (coll _ _ _ _ _ _ _); cbn. by rewrite lookup_app_l.
        -- destruct e; cbn; by rewrite lookup_app_l.
      * destruct e; cbn; try by rewrite lookup_app_l.
        rewrite lookup_app_l by done. rewrite Hc. cbn. by rewrite lookup_app_l.
    + rewrite Hc. cbn.
      destruct (gen _ _ _ _ _ _ _) as [fs1 [plan|e]]; cbn.
      -- by destruct (coll _ _ _ _ _ _ _).
      -- by destruct e.
Qed.

(** ** One attempt, and the loop over attempts *)

Lemma py_bind_run {A B} (m : py A) (f : A -> py B) (st : state) :
  (m ≫= f) st =
    match m st with
    | (st', Ok a) => f a st'
    | (st', Raise e) => (st', Raise e)
    end.
Proof. reflexivity. Qed.

Lemma for_each_cons {A} (x : A) (xs : list A) (body : A -> py unit) (st : state) :
  for_each (x :: xs) body st =
    match body x st with
    | (st', Ok _) => for_each xs body st'
    | (st', Raise e) => (st', Raise e)
    end.
Proof. reflexivity. Qed.

Ltac py_unfold :=
  unfold generate_task, try, eval, throw, deref, emit, alloc, on_fs,
    mbind, py_bind, mret, py_ret in *.

Section Attempts.

Variable generate_input_files :
  string -> Domain -> config -> Z -> string -> option Z ->
  filesystem -> filesystem * result string.
Variable collect_task :
  Domain -> config -> Z -> string -> string -> bool ->
  filesystem -> filesystem * result unit.
Variables (gens : string) (d : Domain) (tmp_dir output_dir : string) (time_limit : option Z).

(** The dict objects that one call of [adapt_parameters] creates. *)
Definition copies (c : config) : list config :=
  match _adapt_parameters d with
  | Some rule => [(rule c).1]
  | None => []
  end.

(** What one attempt on a configuration with contents [c] does to the
    files, the events it adds to the trace, and how it ends. *)
Definition attempt (c : config) (seed : Z) (fs0 : filesystem)
  : filesystem * list event * result unit :=
  let called := Call (adapt_parameters_call (name d) c) in
  match adapted d c with
  | Raise (IllegalConfiguration err) =>
      (fs0, [called; Log WARNING (Skipping_illegal_configuration c err)], Ok tt)
  | Raise e => (fs0, [called], Raise e)
  | Ok c' =>
      let start := [called; Log INFO (Create_instance c' seed);
                    Call (generate_input_files_call (name d) c' seed)] in
      match generate_input_files gens d c' seed tmp_dir time_limit fs0 with
      | (fs1, Raise (CalledProcessError rc)) =>
          (fs1, start ++ [Log ERROR (Failed_to_generate_task (CalledProcessError rc))], Ok tt)
      | (fs1, Raise TimeoutExpired) =>
          (fs1, start ++ [Log ERROR (Failed_to_generate_task TimeoutExpired)], Ok tt)
      | (fs1, Raise e) => (fs1, start, Raise e)
      | (fs1, Ok plan_dir) =>
          let (fs2, r) := collect_task d c' seed plan_dir output_dir false fs1 in
          (fs2, start ++ [Call (collect_task_call (name d) c' seed plan_dir)], r)
      end
  end.

Lemma generate_task_run (cfg : nat) (c : config) (seed : Z) (st : state) :
  heap st !! cfg = Some c ->
  generate_task generate_input_files collect_task gens d cfg seed tmp_dir output_dir time_limit st
  = let '(fs', ev, r) := attempt c seed (fs st) in
    (State (heap st ++ copies c) fs' (trace st ++ ev), r).
Proof.
  intros Hc. pose proof (lookup_lt_Some _ _ _ Hc) as Hlt.
  unfold attempt, adapted, rule_on, copies.
  py_unfold. rewrite (adapt_parameters_run _ _ _ _ Hc).
  destruct (_adapt_parameters d) as [rule|]; cbn.
  - destruct (rule c) as [c' [[]|e]]; cbn.
    + rewrite lookup_app_r by lia. rewrite Nat.sub_diag. cbn.
      destruct (generate_input_files _ _ _ _ _ _ _) as [fs1 [plan|e]]; cbn.
      * destruct (collect_task _ _ _ _ _ _ _) as [fs2 r]. cbn.
        by rewrite <- !app_assoc.
      * destruct e; cbn; by rewrite <- ?app_assoc.
    + destruct e; cbn; try done.
      rewrite lookup_app_l by done. rewrite Hc. cbn.
      by rewrite <- app_assoc.
  - rewrite Hc, app_nil_r. cbn.
    destruct (generate_input_files _ _ _ _ _ _ _) as [fs1 [plan|e]]; cbn.
    + destruct (collect_task _ _ _ _ _ _ _) as [fs2 r]. cbn.
      by rewrite <- !app_assoc.
    + destruct e; cbn; by rewrite <- ?app_assoc.
Qed.

(** A sequence of attempts, as the two nested loops of [main] run them:
    the first exception that is not handled ends the sequence. *)
Fixpoint attempts (todo : list (config * Z)) (fs0 : filesystem)
  : filesystem * list event * result unit :=
  match todo with
  | [] => (fs0, [], Ok tt)
  | (c, seed) :: rest =>
      match attempt c seed fs0 with
      | (fs1, ev, Ok _) =>
          let '(fs2, ev', r) := attempts rest fs1 in (fs2, ev ++ ev', r)
      | (fs1, ev, Raise e) => (fs1, ev, Raise e)
      end
  end.

Lemma attempts_app (xs ys : list (config * Z)) (fs0 : filesystem) :
  attempts (xs ++ ys) fs0 =
    match attempts xs fs0 with
    | (fs1, ev, Ok _) =>
        let '(fs2, ev', r) := attempts ys fs1 in (fs2, ev ++ ev', r)
    | (fs1, ev, Raise e) => (fs1, ev, Raise e)
    end.
Proof.
  revert fs0. induction xs as [|[c seed] xs IH]; intros fs0; cbn.
  - by destruct (attempts ys fs0) as [[fs2 ev'] r].
  - destruct (attempt c seed fs0) as [[fs1 ev] [[]|e]]; [|done].
    rewrite IH.
    destruct (attempts xs fs1) as [[fs2 ev2] [[]|e]]; [|done].
    destruct (attempts ys fs2) as [[fs3 ev3] r].
    by rewrite app_assoc.
Qed.

(** The inner loop: [for seed in range(n): generate_task(..., cfg, seed, ...)]. *)
Lemma seed_loop_run (cfg : nat) (c : config) (seeds : list Z) (st : state) :
  heap st !! cfg = Some c ->
  exists made,
    for_each seeds (fun seed =>
      generate_task generate_input_files collect_task gens d cfg seed
        tmp_dir output_dir time_limit) st
    = let '(fs', ev, r) := attempts ((fun seed => (c, seed)) <$> seeds) (fs st) in
      (State (heap st ++ made) fs' (trace st ++ ev), r).
Proof.
  revert st. induction seeds as [|seed seeds IH]; intros st Hc; cbn.
  - exists []. by rewrite !app_nil_r; destruct st.
  - unfold mbind, py_bind. rewrite (generate_task_run _ _ _ _ Hc).
    destruct (attempt c seed (fs st)) as [[fs1 ev] [[]|e]].
    + destruct (IH (State (heap st ++ copies c) fs1 (trace st ++ ev))) as [made Hrun].
      { cbn. by apply lookup_app_l_Some. }
      rewrite Hrun. cbn.
      destruct (attempts _ fs1) as [[fs2 ev2] r].
      exists (copies c ++ made). by rewrite !app_assoc.
    + by exists (copies c).
Qed.

(** All the attempts of a run, in order: grid order, then ascending seed. *)
Definition schedule (grid : list config) (seeds : list Z) : list (config * Z) :=
  c ← grid; (fun seed => (c, seed)) <$> seeds.

(** The two nested loops of [main]. *)
Lemma grid_loop_run (grid : list config) (seeds : list Z) (st : state) :
  exists made,
    for_each grid (fun cfg =>
      cfg ← alloc cfg;
      for_each seeds (fun seed =>
        generate_task generate_input_files collect_task gens d cfg seed
          tmp_dir output_dir time_limit)) st
    = let '(fs', ev, r) := attempts (schedule grid seeds) (fs st) in
      (State (heap st ++ made) fs' (trace st ++ ev), r).
Proof.
  revert st. induction grid as [|c grid IH]; intros st.
  - exists []. cbn. by rewrite !app_nil_r; destruct st.
  - rewrite for_each_cons, py_bind_run.
    unfold schedule in *. cbn [mbind list_bind]. rewrite attempts_app.
    unfold alloc at 1.
    destruct (seed_loop_run (length (heap st)) c seeds
                (State (heap st ++ [c]) (fs st) (trace st))) as [made1 Hrun].
    { cbn. rewrite lookup_app_r by lia. by rewrite Nat.sub_diag. }
    rewrite Hrun. cbn [heap fs trace].
    destruct (attempts _ (fs st)) as [[fs1 ev1] [[]|e]].
    + destruct (IH (State ((heap st ++ [c]) ++ made1) fs1 (trace st ++ ev1))) as [made2 Hrest].
      rewrite Hrest. cbn [heap fs trace].
      destruct (attempts _ fs1) as [[fs2 ev2] r].
      exists ([c] ++ made1 ++ made2). by rewrite !app_assoc.
    + exists ([c] ++ made1). by rewrite !app_assoc.
Qed.

End Attempts.

(** ** The run as a whole *)

(** The loop of [main] over the grid and the seeds, as it stands there. *)
Definition generation_loop
    (generate_input_files :
       string -> Domain -> config -> Z -> string -> option Z ->
       filesystem -> filesystem * result string)
    (collect_task :
       Domain -> config -> Z -> string -> string -> bool ->
       filesystem -> filesystem * result unit)
    (args : Namespace) (d : Domain) (grid : list config) : py unit :=
  for_each grid (fun cfg =>
    cfg ← alloc cfg;
    for_each (range args.(num_random_seeds)) (fun seed =>
      generate_task generate_input_files collect_task args.(generators_dir) d cfg seed
        (path_join args.(destdir) "tmp") args.(destdir) args.(generator_time_limit))).

(** The grid [main] enumerates for a list of parameter descriptors: it
    fills [num_steps_dict] (lines 82-93) and passes it to [generate_grid]
    (line 95). *)
Definition enumerated_grid (cs : list hyperparameter) : result (list config) :=
  num_steps_dict ← build_num_steps_dict cs ∅; generate_grid cs num_steps_dict.

Lemma build_num_steps_dict_total (cs : list hyperparameter) (acc : gmap string Z) :
  exists num_steps_dict, build_num_steps_dict cs acc = Ok num_steps_dict.
Proof.
  revert acc. induction cs as [|hp cs IH]; intros acc; cbn; [by eexists|].
  destruct hp; cbn; apply IH.
Qed.

(** [main] up to the test of [args.dry_run]: the domain is looked up, the
    parameters are printed, the grid is built; the files are not touched. *)
Lemma main_to_loop gen coll (args : Namespace) (d : Domain) (grid : list config) (st : state) :
  get_domain args.(domain) = Ok d ->
  enumerated_grid (attributes d) = Ok grid ->
  main gen coll args st =
    let entry := State (heap st) (fs st) (trace st ++ [Print (Out_parameters (attributes d))]) in
    if args.(dry_run) then (entry, Ok tt)
    else
      match generation_loop gen coll args d grid entry with
      | (st1, Ok _) =>
          (shutil_rmtree (path_join args.(destdir) "tmp") ;;
           emit (Print (Out_number_of_configurations (Z.of_nat (length grid))))) st1
      | (st1, Raise e) => (st1, Raise e)
      end.
Proof.
  intros Hd Hgrid. unfold main, generation_loop.
  rewrite Hd. unfold eval. rewrite py_bind_run. cbn [mbind].
  rewrite py_bind_run. unfold emit at 1. cbn [heap fs trace].
  unfold enumerated_grid in Hgrid.
  destruct (build_num_steps_dict_total (attributes d) ∅) as [nsd Hnsd].
  rewrite Hnsd in Hgrid |- *. cbn [mbind result_bind] in Hgrid.
  rewrite py_bind_run. rewrite py_bind_run.
  rewrite Hgrid.
  destruct (dry_run args); [done|].
  by rewrite py_bind_run.
Qed.

(** What [main] does after the loop, from the state [st1] the loop left. *)
Lemma after_loop (tmp_dir : string) (n : Z) (st1 : state) :
  (shutil_rmtree tmp_dir ;; emit (Print (Out_number_of_configurations n))) st1 =
    match fs st1 !! tmp_dir with
    | Some Dir =>
        (State (heap st1) (filter (fun kv => negb (below tmp_dir kv.1)) (fs st1))
           (trace st1 ++ [Call (rmtree_call tmp_dir); Print (Out_number_of_configurations n)]),
         Ok tt)
    | Some (File _) =>
        (State (heap st1) (fs st1) (trace st1 ++ [Call (rmtree_call tmp_dir)]),
         Raise (NotADirectoryError tmp_dir))
    | None =>
        (State (heap st1) (fs st1) (trace st1 ++ [Call (rmtree_call tmp_dir)]),
         Raise (FileNotFoundError tmp_dir))
    end.
Proof.
  unfold shutil_rmtree, emit, on_fs, mbind, py_bind. cbn.
  destruct (fs st1 !! tmp_dir) as [[|content]|]; cbn; try done.
  by rewrite <- app_assoc.
Qed.

(** ** Dry run *)

Definition ferry_dry_run : Namespace :=
  {| generators_dir := "generators"; domain := "ferry"; destdir := "out";
     debug := false; dry_run := true; generator_time_limit := None;
     num_random_seeds := 1 |}.

Lemma generate_grid_ferry :
  exists grid, enumerated_grid ferry_attributes = Ok grid /\ length grid = 900%nat.
Proof.
  assert (Hsize : match enumerated_grid ferry_attributes with
                  | Ok grid => Some (length grid)
                  | Raise _ => None
                  end = Some 900%nat) by (vm_compute; reflexivity).
  destruct (enumerated_grid ferry_attributes) as [grid|e]; [|discriminate Hsize].
  exists grid. split; [reflexivity|congruence].
Qed.

(** C1 (the code at a dry run).  With [--dry-run], [main] builds the grid
    and returns at once: it calls neither the generator nor the collector and
    leaves the files and the dict objects as they were, but the only line it
    prints is the one with the parameters; the line with the number of
    configurations, which the help text and the test script expect, is
    printed only at the end of a run that is not dry.  Here for the ferry
    domain, whose grid has 900 configurations. *)
Theorem C1_dry_run_returns_before_printing_grid_size gen coll (st : state) :
  main gen coll ferry_dry_run st
  = (State (heap st) (fs st) (trace st ++ [Print (Out_parameters ferry_attributes)]), Ok tt).
Proof.
  destruct generate_grid_ferry as (grid & Hgrid & _).
  rewrite (main_to_loop gen coll ferry_dry_run ferry grid st get_domain_ferry Hgrid).
  reflexivity.
Qed.

(** ** Runs in which attempts fail only in the expected ways *)

(** How a call of the generator may end without ending the run: it
    returns, exits non-zero, or runs out of time. *)
Definition expected_end {A} (r : result A) : Prop :=
  match r with
  | Ok _ | Raise (CalledProcessError _) | Raise TimeoutExpired => True
  | Raise _ => False
  end.

(** The rule of [d] accepts (or repairs) [c], or rejects it as infeasible. *)
Definition accepted_or_rejected (d : Domain) (c : config) : bool :=
  match adapted d c with
  | Ok _ | Raise (IllegalConfiguration _) => true
  | Raise _ => false
  end.

(** The configurations passed to [adapt_parameters], in the order of the calls. *)
Definition adapt_calls (ev : list event) : list config :=
  omap (fun e => match e with
                 | Call (adapt_parameters_call _ c) => Some c
                 | _ => None
                 end) ev.


Lemma adapt_calls_app (xs ys : list event) :
  adapt_calls (xs ++ ys) = adapt_calls xs ++ adapt_calls ys.
Proof. apply omap_app. Qed.


Section ExpectedFailures.

Variable gen :
  string -> Domain -> config -> Z -> string -> option Z ->
  filesystem -> filesystem * result string.
Variable coll :
  Domain -> config -> Z -> string -> string -> bool ->
  filesystem -> filesystem * result unit.
Variables (gens : string) (d : Domain) (tmp_dir output_dir : string) (time_limit : option Z).

Hypothesis gen_expected :
  forall gens d c seed tmp tl fs0, expected_end (gen gens d c seed tmp tl fs0).2.
Hypothesis coll_returns :
  forall d c seed src dst logs fs0, (coll d c seed src dst logs fs0).2 = Ok tt.

Lemma attempt_completes (c : config) (seed : Z) (fs0 : filesystem) :
  accepted_or_rejected d c = true ->
  (attempt gen coll gens d tmp_dir output_dir time_limit c seed fs0).2 = Ok tt.
Proof.
  unfold accepted_or_rejected, attempt. intros Hc.
  destruct (adapted d c) as [c'|e].
  - pose proof (gen_expected gens d c' seed tmp_dir time_limit fs0) as Hg.
    pose proof (coll_returns d c' seed) as Hcoll.
    destruct (gen gens d c' seed tmp_dir time_limit fs0) as [fs1 [plan|e]]; cbn in *.
    + specialize (Hcoll plan output_dir false fs1).
      by destruct (coll _ _ _ _ _ _ _).
    + by destruct e.
  - by destruct e.
Qed.

Lemma attempts_complete (todo : list (config * Z)) (fs0 : filesystem) :
  Forall (fun p => accepted_or_rejected d p.1 = true) todo ->
  (attempts gen coll gens d tmp_dir output_dir time_limit todo fs0).2 = Ok tt.
Proof.
  intros Hall. revert fs0.
  induction Hall as [|[c seed] todo Hc _ IH]; intros fs0; cbn; [done|].
  pose proof (attempt_completes c seed fs0 Hc) as Hone.
  destruct (attempt _ _ _ _ _ _ _ c seed fs0) as [[fs1 ev] [[]|e]]; [|done].
  specialize (IH fs1).
  by destruct (attempts _ _ _ _ _ _ _ todo fs1) as [[fs2 ev'] r].
Qed.

End ExpectedFailures.

(** Every attempt starts with the call of [adapt_parameters]; one that
    does not end the run made that call once. *)
Lemma attempt_adapt_calls gen coll gens d tmp out tl (c : config) (seed : Z) (fs0 : filesystem) :
  adapt_calls (attempt gen coll gens d tmp out tl c seed fs0).1.2 = [c].
Proof.
  unfold attempt.
  destruct (adapted d c) as [c'|e].
  - destruct (gen _ _ _ _ _ _ _) as [fs1 [plan|e]].
    + by destruct (coll _ _ _ _ _ _ _).
    + by destruct e.
  - by destruct e.
Qed.

Lemma attempts_adapt_calls gen coll gens d tmp out tl (todo : list (config * Z)) (fs0 : filesystem) :
  (attempts gen coll gens d tmp out tl todo fs0).2 = Ok tt ->
  adapt_calls (attempts gen coll gens d tmp out tl todo fs0).1.2 = todo.*1.
Proof.
  revert fs0. induction todo as [|[c seed] todo IH]; intros fs0; cbn; [done|].
  pose proof (attempt_adapt_calls gen coll gens d tmp out tl c seed fs0) as Hone.
  destruct (attempt _ _ _ _ _ _ _ c seed fs0) as [[fs1 ev] [[]|e]]; [|done].
  specialize (IH fs1).
  destruct (attempts _ _ _ _ _ _ _ todo fs1) as [[fs2 ev'] r]. cbn [fst snd] in *.
  intros Hr. by rewrite adapt_calls_app, Hone, (IH Hr).
Qed.




Lemma schedule_configs (grid : list config) (seeds : list Z) (p : config * Z) :
  p ∈ schedule grid seeds -> p.1 ∈ grid.
Proof.
  unfold schedule. intros Hp.
  apply list_elem_of_bind in Hp as (c & Hp & Hc).
  apply list_elem_of_fmap in Hp as (seed & -> & _). done.
Qed.

Lemma range_length (n : Z) : length (range n) = Z.to_nat n.
Proof. unfold range. by rewrite length_fmap, length_seq. Qed.

(** The loop of [main], through [attempts]. *)
Lemma generation_loop_run gen coll (args : Namespace) (d : Domain) (grid : list config) (st : state) :
  exists made,
    generation_loop gen coll args d grid st
    = let '(fs', ev, r) :=
        attempts gen coll args.(generators_dir) d (path_join args.(destdir) "tmp")
          args.(destdir) args.(generator_time_limit)
          (schedule grid (range args.(num_random_seeds))) (fs st) in
      (State (heap st ++ made) fs' (trace st ++ ev), r).
Proof. apply grid_loop_run. Qed.

Lemma schedule_accepted_or_rejected (d : Domain) (grid : list config) (seeds : list Z) :
  forallb (accepted_or_rejected d) grid = true ->
  Forall (fun p : config * Z => accepted_or_rejected d p.1 = true) (schedule grid seeds).
Proof.
  intros Hall. apply Forall_forall. intros p Hp.
  apply schedule_configs in Hp.
  rewrite forallb_forall in Hall. apply Hall. by apply list_elem_of_In.
Qed.

(** ** The temporary directory *)

(** Two stand-ins for the functions of [utils.py], for concrete runs: the
    generator creates the working directory and fails on odd seeds, the
    collector does nothing. *)
Definition gen_stub (gens : string) (d : Domain) (c : config) (seed : Z) (tmp_dir : string)
    (timeout : option Z) (fs0 : filesystem) : filesystem * result string :=
  (<[tmp_dir := Dir]> fs0,
   if Z.even seed then Ok (path_join tmp_dir "plan") else Raise (CalledProcessError 1)).

Definition coll_stub (d : Domain) (c : config) (seed : Z) (srcdir destdir : string)
    (copy_logs : bool) (fs0 : filesystem) : filesystem * result unit :=
  (fs0, Ok tt).

Definition run_of (domain_name : string) (seeds : Z) : Namespace :=
  {| generators_dir := "generators"; domain := domain_name; destdir := "out";
     debug := false; dry_run := false; generator_time_limit := None;
     num_random_seeds := seeds |}.

Definition empty_state : state := State [] ∅ [].

(** C8 (as the claim states it, refuted).  A run of the ferry domain that
    is not dry, with [--num-random-seeds 0] and a destination without a
    [tmp] directory: [main] creates no directory (the files are the same at
    the end as at the start, and no function of [utils] was called), the
    removal after the loop raises [FileNotFoundError], and the number of
    configurations is not printed. *)
Lemma C8_counterexample_tmp_dir_never_created :
  let end_ := main gen_stub coll_stub (run_of "ferry" 0) empty_state in
  end_.2 = Raise (FileNotFoundError "out/tmp")
  /\ fs end_.1 = ∅
  /\ trace end_.1 = [Print (Out_parameters ferry_attributes); Call (rmtree_call "out/tmp")].
Proof. vm_compute. repeat split; reflexivity. Qed.

(** C8 (amended).  In a run that is not dry and in which attempts fail
    only in the expected ways, [main] enters the loop with the files as it
    found them (it has computed the path [destdir/tmp], not created the
    directory), the loop runs to its end whatever the number of rejected or
    failed attempts, and [main] then calls [shutil.rmtree] on that path with
    errors not ignored: if the path is a directory at that point, it and all
    that is below it are removed and the number of configurations is
    printed; otherwise the removal raises and nothing more is printed. *)
Theorem C8_rmtree_after_loop gen coll (args : Namespace) (d : Domain)
    (grid : list config) (st : state)
    (gen_expected : forall gens d c seed tmp tl fs0, expected_end (gen gens d c seed tmp tl fs0).2)
    (coll_returns : forall d c seed src dst logs fs0, (coll d c seed src dst logs fs0).2 = Ok tt)
    (Hrule : forallb (accepted_or_rejected d) grid = true)
    (Hdry : args.(dry_run) = false)
    (Hd : get_domain args.(domain) = Ok d)
    (Hgrid : enumerated_grid (attributes d) = Ok grid) :
  let tmp_dir := path_join args.(destdir) "tmp" in
  let entry := State (heap st) (fs st) (trace st ++ [Print (Out_parameters (attributes d))]) in
  exists st1,
    generation_loop gen coll args d grid entry = (st1, Ok tt)
    /\ main gen coll args st =
         match fs st1 !! tmp_dir with
         | Some Dir =>
             (State (heap st1) (filter (fun kv => negb (below tmp_dir kv.1)) (fs st1))
                (trace st1 ++ [Call (rmtree_call tmp_dir);
                               Print (Out_number_of_configurations (Z.of_nat (length grid)))]),
              Ok tt)
         | Some (File _) =>
             (State (heap st1) (fs st1) (trace st1 ++ [Call (rmtree_call tmp_dir)]),
              Raise (NotADirectoryError tmp_dir))
         | None =>
             (State (heap st1) (fs st1) (trace st1 ++ [Call (rmtree_call tmp_dir)]),
              Raise (FileNotFoundError tmp_dir))
         end.
Proof.
  intros tmp_dir entry.
  destruct (generation_loop_run gen coll args d grid entry) as [made Hloop].
  pose proof (attempts_complete gen coll args.(generators_dir) d tmp_dir args.(destdir)
                args.(generator_time_limit) gen_expected coll_returns
                (schedule grid (range args.(num_random_seeds))) (fs entry)
                (schedule_accepted_or_rejected d grid _ Hrule)) as Hdone.
  fold tmp_dir in Hloop.
  destruct (attempts _ _ _ _ _ _ _ _ (fs entry)) as [[fs1 ev] r].
  cbn [snd] in Hdone. subst r.
  eexists. split; [exact Hloop|].
  rewrite (main_to_loop gen coll args d grid st Hd Hgrid), Hdry.
  cbv zeta. fold entry tmp_dir. rewrite Hloop. apply after_loop.
Qed.

Definition barman_grid : list config :=
  product [ ("cocktails", VInt <$> [1; 2; 3; 4; 5; 6; 7; 8; 9; 10]);
            ("shots", VInt <$> [1; 2; 3; 4; 5]);
            ("ingredients", VInt <$> [2; 3; 4; 5; 6]) ].

Lemma generate_grid_barman : enumerated_grid (attributes barman) = Ok barman_grid.
Proof. reflexivity. Qed.

Lemma gen_stub_expected gens d c seed tmp tl fs0 :
  expected_end (gen_stub gens d c seed tmp tl fs0).2.
Proof. unfold gen_stub. cbn. destruct (Z.even seed); exact I. Qed.

Lemma barman_accepted_or_rejected : forallb (accepted_or_rejected barman) barman_grid = true.
Proof. vm_compute. reflexivity. Qed.

Lemma C8_rmtree_after_loop_witness :
  let args := run_of "barman" 2 in
  let tmp_dir := path_join args.(destdir) "tmp" in
  let entry := State [] ∅ ([] ++ [Print (Out_parameters (attributes barman))]) in
  exists st1,
    generation_loop gen_stub coll_stub args barman barman_grid entry = (st1, Ok tt)
    /\ main gen_stub coll_stub args empty_state =
         match fs st1 !! tmp_dir with
         | Some Dir =>
             (State (heap st1) (filter (fun kv => negb (below tmp_dir kv.1)) (fs st1))
                (trace st1 ++ [Call (rmtree_call tmp_dir);
                               Print (Out_number_of_configurations (Z.of_nat (length barman_grid)))]),
              Ok tt)
         | Some (File _) =>
             (State (heap st1) (fs st1) (trace st1 ++ [Call (rmtree_call tmp_dir)]),
              Raise (NotADirectoryError tmp_dir))
         | None =>
             (State (heap st1) (fs st1) (trace st1 ++ [Call (rmtree_call tmp_dir)]),
              Raise (FileNotFoundError tmp_dir))
         end.
Proof.
  exact (C8_rmtree_after_loop gen_stub coll_stub (run_of "barman" 2) barman barman_grid
           empty_state gen_stub_expected (fun _ _ _ _ _ _ _ => eq_refl)
           barman_accepted_or_rejected eq_refl get_domain_barman generate_grid_barman).
Defined.

(** ** Expected failures stay inside their attempt *)

(** C6.  Each expected failure of an attempt is caught and logged by
    [generate_task], which then returns normally: (1) a configuration that
    the rule rejects gives one warning, and neither the generator nor the
    collector is called; (2) a generator that exits non-zero or runs out of
    time gives one error record and no call of the collector.  (3) When
    attempts fail only in these ways, the loop of [main] runs to its end and
    has started every attempt of the grid, in grid order and seed order.
    (4) What an attempt does, and how it ends, depends on the contents of
    its configuration, its seed and the files only: not on the trace or on
    the dict objects that earlier attempts, failed or not, have left. *)
Theorem C6_expected_failures_are_isolated gen coll (args : Namespace) (d : Domain)
    (grid : list config)
    (gen_expected : forall gens d c seed tmp tl fs0, expected_end (gen gens d c seed tmp tl fs0).2)
    (coll_returns : forall d c seed src dst logs fs0, (coll d c seed src dst logs fs0).2 = Ok tt)
    (Hrule : forallb (accepted_or_rejected d) grid = true) :
  (forall gens cfg c seed tmp out tl st err,
      heap st !! cfg = Some c ->
      adapted d c = Raise (IllegalConfiguration err) ->
      generate_task gen coll gens d cfg seed tmp out tl st
      = (State (heap st ++ copies d c) (fs st)
           (trace st ++ [Call (adapt_parameters_call (name d) c);
                         Log WARNING (Skipping_illegal_configuration c err)]),
         Ok tt))
  /\ (forall gens cfg c c' seed tmp out tl st fs1 e,
        heap st !! cfg = Some c ->
        adapted d c = Ok c' ->
        gen gens d c' seed tmp tl (fs st) = (fs1, Raise e) ->
        (exists rc, e = CalledProcessError rc) \/ e = TimeoutExpired ->
        generate_task gen coll gens d cfg seed tmp out tl st
        = (State (heap st ++ copies d c) fs1
             (trace st ++ [Call (adapt_parameters_call (name d) c);
                           Log INFO (Create_instance c' seed);
                           Call (generate_input_files_call (name d) c' seed);
                           Log ERROR (Failed_to_generate_task e)]),
           Ok tt))
  /\ (forall st, exists st1 ev,
        generation_loop gen coll args d grid st = (st1, Ok tt)
        /\ trace st1 = trace st ++ ev
        /\ adapt_calls ev = (schedule grid (range args.(num_random_seeds))).*1)
  /\ (forall gens cfg1 cfg2 c seed tmp out tl st1 st2,
        heap st1 !! cfg1 = Some c ->
        heap st2 !! cfg2 = Some c ->
        fs st1 = fs st2 ->
        let end1 := generate_task gen coll gens d cfg1 seed tmp out tl st1 in
        let end2 := generate_task gen coll gens d cfg2 seed tmp out tl st2 in
        end1.2 = end2.2 /\ fs end1.1 = fs end2.1
        /\ exists ev, trace end1.1 = trace st1 ++ ev /\ trace end2.1 = trace st2 ++ ev).
Proof.
  repeat split.
  - intros gens cfg c seed tmp out tl st err Hc Hrej.
    rewrite (generate_task_run gen coll gens d tmp out tl cfg c seed st Hc).
    unfold attempt. by rewrite Hrej.
  - intros gens cfg c c' seed tmp out tl st fs1 e Hc Hok Hgen He.
    rewrite (generate_task_run gen coll gens d tmp out tl cfg c seed st Hc).
    unfold attempt. rewrite Hok, Hgen.
    by destruct He as [[rc ->]| ->].
  - intros st.
    destruct (generation_loop_run gen coll args d grid st) as [made Hloop].
    set (todo := schedule grid (range args.(num_random_seeds))) in *.
    pose proof (attempts_complete gen coll args.(generators_dir) d
                  (path_join args.(destdir) "tmp") args.(destdir)
                  args.(generator_time_limit) gen_expected coll_returns todo (fs st)
                  (schedule_accepted_or_rejected d grid _ Hrule)) as Hdone.
    pose proof (attempts_adapt_calls gen coll args.(generators_dir) d
                  (path_join args.(destdir) "tmp") args.(destdir)
                  args.(generator_time_limit) todo (fs st) Hdone) as Hcalls.
    destruct (attempts _ _ _ _ _ _ _ todo (fs st)) as [[fs1 ev] r].
    cbn [fst snd] in *. subst r.
    eexists _, ev. by rewrite Hloop.
  - rewrite (generate_task_run gen coll gens d tmp out tl cfg1 c seed st1 H).
    rewrite (generate_task_run gen coll gens d tmp out tl cfg2 c seed st2 H0).
    rewrite H1. by destruct (attempt _ _ _ _ _ _ _ c seed (fs st2)) as [[fs' ev] r].
  - rewrite (generate_task_run gen coll gens d tmp out tl cfg1 c seed st1 H).
    rewrite (generate_task_run gen coll gens d tmp out tl cfg2 c seed st2 H0).
    rewrite H1. by destruct (attempt _ _ _ _ _ _ _ c seed (fs st2)) as [[fs' ev] r].
  - rewrite (generate_task_run gen coll gens d tmp out tl cfg1 c seed st1 H).
    rewrite (generate_task_run gen coll gens d tmp out tl cfg2 c seed st2 H0).
    rewrite H1. destruct (attempt _ _ _ _ _ _ _ c seed (fs st2)) as [[fs' ev] r].
    by exists ev.
Qed.

Lemma C6_expected_failures_are_isolated_witness :
  exists st1 ev,
    generation_loop gen_stub coll_stub (run_of "barman" 2) barman barman_grid empty_state
      = (st1, Ok tt)
    /\ trace st1 = trace empty_state ++ ev
    /\ adapt_calls ev = (schedule barman_grid (range 2)).*1.
Proof.
  exact (proj1 (proj2 (proj2
           (C6_expected_failures_are_isolated gen_stub coll_stub (run_of "barman" 2) barman
              barman_grid gen_stub_expected (fun _ _ _ _ _ _ _ => eq_refl)
              barman_accepted_or_rejected))) empty_state).
Defined.

(** ** Rejected configurations *)

Lemma attempts_rejected gen coll gens d tmp out tl (c : config) (err : list fpart)
    (seeds : list Z) (fs0 : filesystem) :
  adapted d c = Raise (IllegalConfiguration err) ->
  attempts gen coll gens d tmp out tl ((fun seed => (c, seed)) <$> seeds) fs0
  = (fs0,
     mjoin (replicate (length seeds)
              [Call (adapt_parameters_call (name d) c);
               Log WARNING (Skipping_illegal_configuration c err)]),
     Ok tt).
Proof.
  intros Hrej. induction seeds as [|seed seeds IH]; cbn; [done|].
  unfold attempt at 1. rewrite Hrej, IH. done.
Qed.

(** The barman configuration with 2 cocktails, 1 shot and 2 ingredients. *)
Definition two_cocktails_one_shot (c : config) : bool :=
  match c !! "cocktails", c !! "shots", c !! "ingredients" with
  | Some (VInt 2), Some (VInt 1), Some (VInt 2) => true
  | _, _, _ => false
  end.

Definition warnings (ev : list event) : list config :=
  omap (fun e => match e with
                 | Log WARNING (Skipping_illegal_configuration c _) => Some c
                 | _ => None
                 end) ev.

(** C2 (as the claim states it, refuted).  In a run of the barman domain
    with two seeds, the configuration with 2 cocktails and 1 shot, which the
    rule rejects, is passed to [adapt_parameters] twice and gives two
    warnings: the loop over the seeds is entered for it, and the rule is run
    once per seed. *)
Lemma C2_counterexample_adapt_is_rerun_per_seed :
  let ev := trace (main gen_stub coll_stub (run_of "barman" 2) empty_state).1 in
  length (List.filter two_cocktails_one_shot (adapt_calls ev)) = 2%nat
  /\ length (List.filter two_cocktails_one_shot (warnings ev)) = 2%nat.
Proof. vm_compute. split; reflexivity. Qed.

(** C2 (amended).  For a configuration [c] that the rule of the domain
    rejects as infeasible, every attempt is skipped: the loop over the [n]
    requested seeds calls [adapt_parameters] on it once per seed and logs
    the reason once per seed, and does nothing else; the generator is not
    called and the files are as before. *)
Theorem C2_rejected_configuration_is_skipped_for_each_seed gen coll gens (d : Domain)
    (cfg : nat) (c : config) (err : list fpart) (n : Z) tmp out tl (st : state)
    (Hc : heap st !! cfg = Some c)
    (Hrej : adapted d c = Raise (IllegalConfiguration err)) :
  exists made,
    for_each (range n) (fun seed => generate_task gen coll gens d cfg seed tmp out tl) st
    = (State (heap st ++ made) (fs st)
         (trace st ++ mjoin (replicate (Z.to_nat n)
                               [Call (adapt_parameters_call (name d) c);
                                Log WARNING (Skipping_illegal_configuration c err)])),
       Ok tt).
Proof.
  destruct (seed_loop_run gen coll gens d tmp out tl cfg c (range n) st Hc) as [made Hrun].
  exists made. rewrite Hrun, (attempts_rejected _ _ _ _ _ _ _ c err _ _ Hrej).
  by rewrite range_length.
Qed.

Definition rejected_barman : config :=
  {[ "cocktails" := VInt 2; "shots" := VInt 1; "ingredients" := VInt 2 ]}.

Lemma C2_rejected_configuration_is_skipped_for_each_seed_witness :
  exists made,
    for_each (range 3) (fun seed =>
      generate_task gen_stub coll_stub "generators" barman 0 seed "out/tmp" "out" None)
      (State [rejected_barman] ∅ [])
    = (State ([rejected_barman] ++ made) ∅
         ([] ++ mjoin (replicate (Z.to_nat 3)
                  [Call (adapt_parameters_call (name barman) rejected_barman);
                   Log WARNING (Skipping_illegal_configuration rejected_barman
                                  [Lit "we need shots >= cocktails"])])),
       Ok tt).
Proof.
  exact (C2_rejected_configuration_is_skipped_for_each_seed gen_stub coll_stub "generators"
           barman 0 rejected_barman [Lit "we need shots >= cocktails"] 3 "out/tmp" "out" None
           (State [rejected_barman] ∅ []) eq_refl eq_refl).
Defined.

(** C5.  The rule of the barman domain, on a configuration whose [shots]
    and [cocktails] are ints: with [shots < cocktails] the call of
    [adapt_parameters] raises [IllegalConfiguration], and [generate_task]
    then logs a warning and returns without calling the generator or the
    collector, the files being as before; with [shots >= cocktails] the call
    returns a dict with the contents of its argument. *)
Theorem C5_barman_rejects_exactly_shots_below_cocktails
    (c : config) (shots cocktails : Z) (parameters : nat) (st : state)
    (Hshots : c !! "shots" = Some (VInt shots))
    (Hcocktails : c !! "cocktails" = Some (VInt cocktails))
    (Hc : heap st !! parameters = Some c) :
  let called := Call (adapt_parameters_call "barman" c) in
  (shots < cocktails ->
     adapt_parameters barman parameters st
     = (State (heap st ++ [c]) (fs st) (trace st ++ [called]),
        Raise (IllegalConfiguration [Lit "we need shots >= cocktails"]))
     /\ forall gen coll gens seed tmp out tl,
          generate_task gen coll gens barman parameters seed tmp out tl st
          = (State (heap st ++ [c]) (fs st)
               (trace st ++ [called;
                             Log WARNING (Skipping_illegal_configuration c
                                            [Lit "we need shots >= cocktails"])]),
             Ok tt))
  /\ (cocktails <= shots ->
        adapt_parameters barman parameters st
        = (State (heap st ++ [c]) (fs st) (trace st ++ [called]), Ok (length (heap st)))).
Proof.
  assert (Hrule : adapt_parameters_barman c
                  = (c, if shots <? cocktails
                        then Raise (IllegalConfiguration [Lit "we need shots >= cocktails"])
                        else Ok tt)).
  { unfold adapt_parameters_barman, mbind, dictM_bind, getitem, pure.
    rewrite Hshots, Hcocktails. cbn.
    unfold Z.ltb. by destruct (shots ?= cocktails). }
  split.
  - intros Hlt. apply Z.ltb_lt in Hlt. split.
    + rewrite (adapt_parameters_run _ _ _ _ Hc). cbn. by rewrite Hrule, Hlt.
    + intros. rewrite (generate_task_run gen coll gens barman tmp out tl _ _ seed st Hc).
      unfold attempt, adapted, rule_on, copies. cbn. by rewrite Hrule, Hlt.
  - intros Hge. apply Z.ltb_ge in Hge.
    rewrite (adapt_parameters_run _ _ _ _ Hc). cbn. by rewrite Hrule, Hge.
Qed.

Lemma C5_barman_rejects_exactly_shots_below_cocktails_witness :
  adapt_parameters barman 0 (State [rejected_barman] ∅ [])
  = (State ([rejected_barman] ++ [rejected_barman]) ∅
       ([] ++ [Call (adapt_parameters_call "barman" rejected_barman)]),
     Raise (IllegalConfiguration [Lit "we need shots >= cocktails"])).
Proof.
  refine (proj1 (proj1 (C5_barman_rejects_exactly_shots_below_cocktails rejected_barman 1 2 0
                  (State [rejected_barman] ∅ []) eq_refl eq_refl eq_refl) _)).
  lia.
Defined.

(** ** The size of the grid *)



Lemma axes_of_spec (values_of : hyperparameter -> result (list value))
    (cs : list hyperparameter) (axes : list (string * list value)) :
  axes_of values_of cs = Ok axes ->
  Forall2 (fun hp ax => hp_name hp = ax.1 /\ values_of hp = Ok ax.2) cs axes.
Proof.
  revert axes. induction cs as [|hp cs IH]; intros axes; cbn.
  - intros [= <-]. constructor.
  - unfold mbind, result_bind.
    destruct (values_of hp) as [vs|e] eqn:Hvs; [|done].
    destruct (axes_of values_of cs) as [rest|e]; [|done].
    intros [= <-]. constructor; [done|]. by apply IH.
Qed.

(** The ints from [lower], [count] of them, [step] apart. *)
Definition stepped (lower step : Z) (count : nat) : list Z :=
  (fun i : nat => lower + Z.of_nat i * step) <$> seq 0 count.

Lemma py_range_positive (lower upper step : Z) :
  0 < step -> lower <= upper ->
  py_range lower (upper + 1) step
  = Ok (stepped lower step (Z.to_nat ((upper - lower) / step + 1))).
Proof.
  intros Hstep Hle. unfold py_range, stepped.
  destruct (Z.eqb_spec step 0) as [->|_]; [lia|].
  destruct (Z.ltb_spec 0 step) as [_|]; [|lia].
  replace (upper + 1 - lower + step - 1) with (upper - lower + 1 * step) by lia.
  by rewrite Z.div_add by lia.
Qed.


(** *** The number of points of a range is the number of steps asked for *)





(** *** The number of steps [main] asks for *)

(** The entry of [num_steps_dict] that [main]'s loop leaves for a
    parameter: the number of values of an integer range, and none for
    the other descriptors. *)
Definition num_steps (hp : hyperparameter) : option Z :=
  match hp with
  | UniformIntegerHyperparameter _ lower upper _ _ => Some (upper - lower + 1)
  | _ => None
  end.






(** *** The grids of the registry *)

#[local] Instance float_eq_dec : EqDecision Float64.float.
Proof. solve_decision. Defined.

#[local] Instance value_eq_dec : EqDecision value.
Proof. solve_decision. Defined.



Lemma get_domain_registered (domain_name : string) (d : Domain) :
  get_domain domain_name = Ok d -> exists ds, DOMAINS = Ok ds /\ In d ds.
Proof.
  unfold get_domain, mbind, result_bind.
  destruct DOMAINS as [ds|e]; [|done].
  destruct (find _ (rev ds)) as [d'|] eqn:Hfind; [|done].
  intros [= ->]. exists ds. split; [done|].
  apply find_some in Hfind as [Hin _]. by apply in_rev.
Qed.


(** Without the numbers of steps that [main] collects, the library
    refuses the ranges of the ferry domain; with one step too few per
    range the grid would have 29 * 29 configurations. *)
Example grid_needs_num_steps :
  generate_grid ferry_attributes ∅ = Raise ValueError
  /\ (fun grid : list config => length grid)
       <$> (match generate_grid ferry_attributes {[ "locations" := 29; "cars" := 29 ]}
            with Ok g => Some g | Raise _ => None end)
     = Some 841%nat.
Proof. split; vm_compute; reflexivity. Qed.



(** The example of the design document: an integer parameter x in [2,5]
    and a categorical y in {a, b} give a grid of 4 * 2 = 8 configurations. *)
Example grid_size_example :
  (fun grid : list config => length grid)
    <$> (match enumerated_grid [ UniformIntegerHyperparameter "x" 2 5 2 false;
                                 CategoricalHyperparameter "y" [VStr "a"; VStr "b"] (VStr "a") ]
         with Ok g => Some g | Raise _ => None end)
  = Some 8%nat.
Proof. vm_compute. reflexivity. Qed.


(** ** Repair rules are idempotent *)

Lemma py_lt_irrefl (a : value) : py_lt a a = Ok false.
Proof.
  destruct a as [z|x|s]; cbn.
  - by rewrite Z.compare_refl.
  - destruct x as [[]|[]| |[] m e]; cbn; try done;
      by rewrite Z.compare_refl, Pos.compare_cont_refl.
  - pose proof (String.compare_antisym s s) as H.
    by destruct (String.compare s s).
Qed.

Lemma py_min_idem_left (a b m : value) : py_min a b = Ok m -> py_min m b = Ok m.
Proof.
  unfold py_min, mbind, result_bind, mret, result_ret.
  destruct (py_lt b a) as [[]|e] eqn:Hlt; intros [= <-].
  - by rewrite py_lt_irrefl.
  - by rewrite Hlt.
Qed.

Lemma py_min_idem_right (a b m : value) : py_min a b = Ok m -> py_min a m = Ok m.
Proof.
  unfold py_min, mbind, result_bind, mret, result_ret.
  destruct (py_lt b a) as [[]|e] eqn:Hlt; intros [= <-].
  - by rewrite Hlt.
  - by rewrite py_lt_irrefl.
Qed.

(** Running a rule step by step. *)
Lemma dict_bind_ok_inv {A B} (m : dictM A) (f : A -> dictM B) (c c' : config) (b : B) :
  (m ≫= f) c = (c', Ok b) -> exists a c1, m c = (c1, Ok a) /\ f a c1 = (c', Ok b).
Proof.
  unfold mbind, dictM_bind. destruct (m c) as [c1 [a|e]]; [|done]. by exists a, c1.
Qed.

Lemma getitem_ok_inv (k : string) (c c' : config) (v : value) :
  getitem k c = (c', Ok v) -> c' = c /\ c !! k = Some v.
Proof. unfold getitem. destruct (c !! k); [|done]. by intros [= <- <-]. Qed.

Lemma pure_ok_inv {A} (r : result A) (c c' : config) (a : A) :
  pure r c = (c', Ok a) -> c' = c /\ r = Ok a.
Proof. unfold pure. by intros [= <- <-]. Qed.

Lemma setitem_ok_inv (k : string) (v : value) (c c' : config) (u : unit) :
  setitem k v c = (c', Ok u) -> c' = <[k := v]> c.
Proof. unfold setitem. by intros [= <-]. Qed.

Lemma getitem_bind {B} (k : string) (f : value -> dictM B) (c : config) (v : value) :
  c !! k = Some v -> (getitem k ≫= f) c = f v c.
Proof. intros H. unfold mbind, dictM_bind, getitem. by rewrite H. Qed.

Lemma pure_bind {A B} (r : result A) (f : A -> dictM B) (c : config) (a : A) :
  r = Ok a -> (pure r ≫= f) c = f a c.
Proof. by intros ->. Qed.

Lemma setitem_bind {B} (k : string) (v : value) (f : unit -> dictM B) (c : config) :
  (setitem k v ≫= f) c = f tt (<[k := v]> c).
Proof. reflexivity. Qed.

Ltac dict_inv :=
  repeat match goal with
    | H : (_ ≫= _) _ = (_, Ok _) |- _ =>
        apply dict_bind_ok_inv in H as (? & ? & ? & H)
    | H : getitem _ _ = (_, Ok _) |- _ => apply getitem_ok_inv in H as [-> H]
    | H : pure _ _ = (_, Ok _) |- _ => apply pure_ok_inv in H as [-> H]
    | H : setitem _ _ _ = (_, Ok _) |- _ => apply setitem_ok_inv in H as ->
    end.

Ltac dict_lookup :=
  repeat (rewrite lookup_insert_ne by done);
  first [apply lookup_insert_eq | eassumption].

Ltac dict_run :=
  repeat first
    [ erewrite getitem_bind by dict_lookup
    | erewrite pure_bind by
        first [eassumption | eapply py_min_idem_left; eassumption
              | eapply py_min_idem_right; eassumption]
    | rewrite setitem_bind ].

Lemma adapt_parameters_floortile_idempotent (c c' : config) :
  adapt_parameters_floortile c = (c', Ok tt) ->
  adapt_parameters_floortile c' = (c', Ok tt).
Proof.
  unfold adapt_parameters_floortile. intros H. dict_inv. simplify_map_eq.
  dict_run. unfold setitem. by rewrite insert_insert_eq.
Qed.

Lemma adapt_parameters_maintenance_idempotent (c c' : config) :
  adapt_parameters_maintenance c = (c', Ok tt) ->
  adapt_parameters_maintenance c' = (c', Ok tt).
Proof.
  unfold adapt_parameters_maintenance. intros H. dict_inv. simplify_map_eq.
  dict_run. unfold setitem. f_equal. apply map_eq. intros k.
  rewrite !lookup_insert. repeat case_decide; done.
Qed.

Ltac same_result :=
  repeat match goal with
    | H1 : ?t = Ok _, H2 : ?t = Ok _ |- _ => rewrite H1 in H2; injection H2 as <-
    end.

Lemma adapt_parameters_grid_idempotent (c c' : config) :
  adapt_parameters_grid c = (c', Ok tt) ->
  adapt_parameters_grid c' = (c', Ok tt).
Proof.
  unfold adapt_parameters_grid. intros H. dict_inv. simplify_map_eq. same_result.
  dict_run. unfold setitem. f_equal. apply map_eq. intros k.
  rewrite !lookup_insert. repeat case_decide; done.
Qed.

(** The three domains with a repair rule, as the registry has them. *)
Definition floortile_domain : Domain :=
  {| name := "floortile";
     attributes :=
       [ UniformIntegerHyperparameter "rows" 2 6 2 false;
         UniformIntegerHyperparameter "columns" 2 6 2 false;
         UniformIntegerHyperparameter "robots" 1 6 1 false ];
     command_template := "floortile-generator.py name {rows} {columns} {robots} seq {seed}";
     _adapt_parameters := Some adapt_parameters_floortile |}.

Definition grid_domain : Domain :=
  {| name := "grid";
     attributes :=
       [ UniformIntegerHyperparameter "x" 2 5 2 false;
         UniformIntegerHyperparameter "y" 2 5 2 false;
         CategoricalHyperparameter "prob_key_in_goal"
           (VFloat <$> [Float64.lit 5 1; Float64.lit 10 1]) (VFloat (Float64.lit 5 1));
         UniformIntegerHyperparameter "shapes" 1 2 1 false;
         UniformIntegerHyperparameter "extra_keys" 1 2 1 false;
         CategoricalHyperparameter "percentage_cells_locked"
           (VFloat <$> [Float64.lit 3 1; Float64.lit 6 1; Float64.lit 9 1])
           (VFloat (Float64.lit 3 1)) ];
     command_template :=
       "generate.py {x} {y} --shapes {shapes} --keys {keys} --locks {locks} --prob-goal {prob_key_in_goal} --seed {seed}";
     _adapt_parameters := Some adapt_parameters_grid |}.

Definition maintenance_domain : Domain :=
  {| name := "maintenance";
     attributes :=
       [ CategoricalHyperparameter "days"
           (VInt <$> [60; 80; 100; 120; 140; 160; 180; 200; 220; 240; 260; 280; 300])
           (VInt 60) ];
     command_template := "maintenance {days} {planes} {mechanics} {cities} {visits} {seed}";
     _adapt_parameters := Some adapt_parameters_maintenance |}.

Lemma get_domain_floortile : get_domain "floortile" = Ok floortile_domain.
Proof. reflexivity. Qed.

Lemma get_domain_grid : get_domain "grid" = Ok grid_domain.
Proof. reflexivity. Qed.

Lemma get_domain_maintenance : get_domain "maintenance" = Ok maintenance_domain.
Proof. reflexivity. Qed.

(** Whether the rule of [d] returns on every configuration of its grid. *)
Definition rule_returns_on_grid (d : Domain) : bool :=
  match enumerated_grid (attributes d) with
  | Ok grid => forallb (fun c => is_ok (adapted d c)) grid
  | Raise _ => false
  end.

Lemma floortile_rule_returns : rule_returns_on_grid floortile_domain = true.
Proof. vm_compute. reflexivity. Qed.

Lemma grid_rule_returns : rule_returns_on_grid grid_domain = true.
Proof. vm_compute. reflexivity. Qed.

Lemma maintenance_rule_returns : rule_returns_on_grid maintenance_domain = true.
Proof. vm_compute. reflexivity. Qed.

(** Two calls in a row, for a rule that is idempotent and returns on the
    grid. *)
Lemma adapt_twice (d : Domain) (rule : dictM unit) (grid : list config) (c : config)
    (parameters : nat) (st : state) :
  _adapt_parameters d = Some rule ->
  (forall c c', rule c = (c', Ok tt) -> rule c' = (c', Ok tt)) ->
  rule_returns_on_grid d = true ->
  enumerated_grid (attributes d) = Ok grid ->
  c ∈ grid ->
  heap st !! parameters = Some c ->
  exists st2 d1 d2 c',
    (adapt_parameters d parameters ≫= fun d1 =>
     adapt_parameters d d1 ≫= fun d2 => mret (d1, d2)) st = (st2, Ok (d1, d2))
    /\ heap st2 !! d1 = Some c'
    /\ heap st2 !! d2 = Some c'
    /\ heap st2 !! parameters = Some c.
Proof.
  intros Hrule Hidem Hret Hgrid Hc Hst.
  pose proof (lookup_lt_Some _ _ _ Hst) as Hlt.
  unfold rule_returns_on_grid in Hret. rewrite Hgrid in Hret.
  rewrite forallb_forall in Hret.
  specialize (Hret c (proj1 (list_elem_of_In _ _) Hc)).
  unfold adapted, rule_on in Hret. rewrite Hrule in Hret.
  destruct (rule c) as [c' [[]|e]] eqn:Hrun; [|done]. clear Hret.
  pose proof (Hidem _ _ Hrun) as Hagain.
  rewrite py_bind_run, (adapt_parameters_run _ _ _ _ Hst), Hrule, Hrun.
  cbn [fst snd]. rewrite py_bind_run.
  erewrite adapt_parameters_run; cycle 1.
  { cbn [heap]. rewrite lookup_app_r by lia. by rewrite Nat.sub_diag. }
  rewrite Hrule, Hagain. cbn [fst snd heap fs trace].
  eexists _, _, _, c'. split; [reflexivity|]. cbn [heap].
  split; [|split].
  - rewrite lookup_app_l by (rewrite length_app; cbn; lia).
    rewrite lookup_app_r by lia. by rewrite Nat.sub_diag.
  - rewrite lookup_app_r by done. by rewrite Nat.sub_diag.
  - rewrite <- app_assoc. by rewrite lookup_app_l.
Qed.

(** C3.  For floortile, grid and maintenance, the three domains whose rule
    repairs, and every configuration [c] of the grid of the domain,
    [adapt_parameters] returns, and applied to what it returned it returns
    the same contents: with d1 = adapt(c) and d2 = adapt(d1), the dicts d1
    and d2 hold the same key-value pairs (and the dict of [c] is as it
    was). *)
Theorem C3_repair_rules_are_idempotent
    (domain_name : string) (d : Domain) (grid : list config) (c : config)
    (parameters : nat) (st : state)
    (Hname : domain_name = "floortile" \/ domain_name = "grid" \/ domain_name = "maintenance")
    (Hd : get_domain domain_name = Ok d)
    (Hgrid : enumerated_grid (attributes d) = Ok grid)
    (Hc : c ∈ grid)
    (Hst : heap st !! parameters = Some c) :
  exists st2 d1 d2 c',
    (adapt_parameters d parameters ≫= fun d1 =>
     adapt_parameters d d1 ≫= fun d2 => mret (d1, d2)) st = (st2, Ok (d1, d2))
    /\ heap st2 !! d1 = Some c'
    /\ heap st2 !! d2 = Some c'
    /\ heap st2 !! parameters = Some c.
Proof.
  destruct Hname as [->|[->| ->]].
  - rewrite get_domain_floortile in Hd. injection Hd as <-.
    exact (adapt_twice floortile_domain _ grid c parameters st eq_refl
             adapt_parameters_floortile_idempotent floortile_rule_returns Hgrid Hc Hst).
  - rewrite get_domain_grid in Hd. injection Hd as <-.
    exact (adapt_twice grid_domain _ grid c parameters st eq_refl
             adapt_parameters_grid_idempotent grid_rule_returns Hgrid Hc Hst).
  - rewrite get_domain_maintenance in Hd. injection Hd as <-.
    exact (adapt_twice maintenance_domain _ grid c parameters st eq_refl
             adapt_parameters_maintenance_idempotent maintenance_rule_returns Hgrid Hc Hst).
Qed.

Lemma C3_repair_rules_are_idempotent_witness :
  exists st2 d1 d2 c',
    (adapt_parameters maintenance_domain 0 ≫= fun d1 =>
     adapt_parameters maintenance_domain d1 ≫= fun d2 => mret (d1, d2))
      (State [ {[ "days" := VInt 60 ]} ] ∅ []) = (st2, Ok (d1, d2))
    /\ heap st2 !! d1 = Some c'
    /\ heap st2 !! d2 = Some c'
    /\ heap st2 !! 0%nat = Some {[ "days" := VInt 60 ]}.
Proof.
  refine (C3_repair_rules_are_idempotent "maintenance" maintenance_domain _
            {[ "days" := VInt 60 ]} 0 (State [ {[ "days" := VInt 60 ]} ] ∅ [])
            (or_intror (or_intror eq_refl)) get_domain_maintenance eq_refl _ eq_refl).
  apply list_elem_of_here.
Defined.

(** ** The two output conventions of [generate_problem] *)

Lemma shutil_move_file (src dst content : string) (st : state) :
  fs st !! src = Some (File content) ->
  fs st !! dst <> Some Dir ->
  shutil_move src dst st
  = (State (heap st) (<[dst := File content]> (delete src (fs st)))
       (trace st ++ [Call (move_call src dst)]), Ok tt).
Proof.
  intros Hsrc Hdst. unfold shutil_move, emit, on_fs, mbind, py_bind. cbn.
  rewrite Hsrc. by destruct (fs st !! dst) as [[|c]|].
Qed.

Lemma open_w_file (path : string) (st : state) :
  fs st !! path <> Some Dir ->
  open_w path st = (State (heap st) (<[path := File EmptyString]> (fs st)) (trace st), Ok tt).
Proof.
  intros Hp. unfold open_w, on_fs. by destruct (fs st !! path) as [[|c]|].
Qed.

Section OutputConventions.

Variable run_process : list string -> option Z -> filesystem -> filesystem * process_end.
Variables (self : Domain) (command : list string) (problem_file domain_file : string).
Variables (timeout : option Z) (st : state).

(** What is done about the domain file, from the files [fs2] that the
    first half of [generate_problem] has left. *)
Lemma generate_problem_domain_file (first : py unit) (st2 : state) :
  first st = (st2, Ok tt) ->
  ((first ;; if uses_per_instance_domain_file self
             then shutil_move TMP_DOMAIN domain_file else mret tt) st
   = if uses_per_instance_domain_file self then shutil_move TMP_DOMAIN domain_file st2
     else (st2, Ok tt)).
Proof.
  intros Hfirst. rewrite py_bind_run, Hfirst.
  by destruct (uses_per_instance_domain_file self).
Qed.

(** C9.  [generate_problem] chooses between two conventions by whether the
    command template contains the name [tmp-problem.pddl].  (1) If it does,
    the process is run with its output left alone and, after exit status 0,
    the file of that name is moved to [problem_file]; after another exit
    status, [CalledProcessError] is raised and nothing is moved.  (2) If it
    does not, [problem_file] is opened for writing, the process is run with
    its standard output going to that file, which then holds exactly what
    the process wrote.  In both cases, if the template contains the name
    [tmp-domain.pddl], the file of that name is then moved to
    [domain_file], and otherwise no other file is touched. *)
Theorem C9_generate_problem_supports_two_output_conventions :
  let template := command_template self in
  let run_to_file := Call (subprocess_run_call command (Some problem_file) timeout) in
  let run_plain := Call (subprocess_run_call command None timeout) in
  let moved_problem := Call (move_call TMP_PROBLEM problem_file) in
  let moved_domain := Call (move_call TMP_DOMAIN domain_file) in
  (* the files [fs2] after the problem file is in place, and then *)
  let domain_file_ready (fs2 : filesystem) (content : string) : Prop :=
    str_contains TMP_DOMAIN template = true ->
    fs2 !! TMP_DOMAIN = Some (File content) /\ fs2 !! domain_file <> Some Dir in
  let finish (fs2 : filesystem) (content : string) (ev : list event) : state * result unit :=
    if str_contains TMP_DOMAIN template then
      (State (heap st) (<[domain_file := File content]> (delete TMP_DOMAIN fs2))
         (trace st ++ ev ++ [moved_domain]), Ok tt)
    else (State (heap st) fs2 (trace st ++ ev), Ok tt) in
  (str_contains TMP_PROBLEM template = true ->
     (forall fs1 out content domain_content,
         run_process command timeout (fs st) = (fs1, Exited 0 out) ->
         fs1 !! TMP_PROBLEM = Some (File content) ->
         fs1 !! problem_file <> Some Dir ->
         let fs2 := <[problem_file := File content]> (delete TMP_PROBLEM fs1) in
         domain_file_ready fs2 domain_content ->
         generate_problem run_process self command problem_file domain_file timeout st
         = finish fs2 domain_content [run_plain; moved_problem])
     /\ (forall fs1 rc out,
           rc <> 0 ->
           run_process command timeout (fs st) = (fs1, Exited rc out) ->
           generate_problem run_process self command problem_file domain_file timeout st
           = (State (heap st) fs1 (trace st ++ [run_plain]), Raise (CalledProcessError rc))))
  /\ (str_contains TMP_PROBLEM template = false ->
      fs st !! problem_file <> Some Dir ->
      forall fs1 out domain_content,
        run_process command timeout (<[problem_file := File EmptyString]> (fs st))
          = (fs1, Exited 0 out) ->
        let fs2 := <[problem_file := File out]> fs1 in
        domain_file_ready fs2 domain_content ->
        generate_problem run_process self command problem_file domain_file timeout st
        = finish fs2 domain_content [run_to_file]).
Proof.
  intros template run_to_file run_plain moved_problem moved_domain domain_file_ready finish.
  assert (Hfinish : forall (first : py unit) fs2 content ev,
            first st = (State (heap st) fs2 (trace st ++ ev), Ok tt) ->
            domain_file_ready fs2 content ->
            (first ;; if uses_per_instance_domain_file self
                       then shutil_move TMP_DOMAIN domain_file else mret tt) st
            = finish fs2 content ev).
  { intros first fs2 content ev Hfirst Hready.
    rewrite (generate_problem_domain_file first _ Hfirst).
    unfold finish, domain_file_ready, uses_per_instance_domain_file in *. fold template.
    destruct (str_contains TMP_DOMAIN template); [|done].
    destruct (Hready eq_refl) as [Hsrc Hdst].
    rewrite shutil_move_file with (content := content) by done.
    cbn. by rewrite <- app_assoc. }
  split.
  - intros Hin. split.
    + intros fs1 out content domain_content Hrun Hsrc Hdst fs2 Hready.
      unfold generate_problem. fold template. rewrite Hin.
      apply Hfinish; [|done].
      rewrite py_bind_run.
      unfold subprocess_run at 1. unfold emit, on_fs, mbind, py_bind. cbn.
      rewrite Hrun.
      rewrite shutil_move_file with (content := content) by done.
      cbn. by rewrite <- app_assoc.
    + intros fs1 rc out Hrc Hrun.
      unfold generate_problem. fold template. rewrite Hin.
      rewrite !py_bind_run.
      unfold subprocess_run at 1. unfold emit, on_fs, mbind, py_bind. cbn.
      rewrite Hrun. by destruct rc.
  - intros Hin Hfile fs1 out domain_content Hrun fs2 Hready.
    unfold generate_problem. fold template. rewrite Hin.
    apply Hfinish; [|done].
    rewrite py_bind_run, (open_w_file _ _ Hfile).
    unfold subprocess_run, emit, on_fs, mbind, py_bind. cbn.
    by rewrite Hrun.
Qed.

End OutputConventions.

(** A generator that prints a problem and exits with status 0. *)
Definition printing_process (command : list string) (timeout : option Z) (fs0 : filesystem)
  : filesystem * process_end :=
  (fs0, Exited 0 "(define (problem ferry-1))").

Lemma C9_generate_problem_supports_two_output_conventions_witness :
  generate_problem printing_process ferry ["ferry"; "-l"; "1"] "p.pddl" "d.pddl" None empty_state
  = (State [] (<["p.pddl" := File "(define (problem ferry-1))"]> ∅)
       ([] ++ [Call (subprocess_run_call ["ferry"; "-l"; "1"] (Some "p.pddl") None)]),
     Ok tt).
Proof.
  refine (proj2 (C9_generate_problem_supports_two_output_conventions printing_process ferry
            ["ferry"; "-l"; "1"] "p.pddl" "d.pddl" None empty_state) eq_refl _ ∅
            "(define (problem ferry-1))" EmptyString eq_refl _).
  - vm_compute. discriminate.
  - vm_compute. discriminate.
Defined.

(** In the registry, pathways names both temporary files in its template,
    tpp the problem file only, and no other domain names either. *)
Lemma registry_sentinels :
  (fun ds : list Domain =>
     List.filter (fun d => str_contains TMP_PROBLEM (command_template d)
                           || str_contains TMP_DOMAIN (command_template d)) ds
     ≫= fun d => [(name d, str_contains TMP_PROBLEM (command_template d),
                   uses_per_instance_domain_file d)])
    <$> (match DOMAINS with Ok ds => Some ds | Raise _ => None end)
  = Some [("pathways", true, true); ("tpp", true, false)].
Proof. vm_compute. reflexivity. Qed.

Lemma C10_adapt_parameters_leaves_argument_witness :
  heap (adapt_parameters barman 0 (State [rejected_barman] ∅ [])).1 !! 0%nat
  = Some rejected_barman.
Proof.
  exact (proj1 (C10_adapt_parameters_leaves_argument barman 0 rejected_barman
                  (State [rejected_barman] ∅ []) eq_refl)).
Defined.

(* ===================================================================== *)
(** * Further properties of the rules *)
(* ===================================================================== *)

Ltac dict_cases :=
  unfold mbind, dictM_bind, mret, dictM_ret, getitem, setitem, pure, raise;
  repeat (case_match; simplify_eq/=); try done.

(** X1.  The seven rules that reject never write to the dict they are given:
    whatever they return or raise, on whatever contents (keys missing,
    values of any type), the contents are the same afterwards. *)
Theorem rejection_rules_do_not_write (rule : dictM unit) (c : config) :
  rule ∈ [ adapt_parameters_barman; adapt_parameters_freecell; adapt_parameters_hiking;
           adapt_parameters_spanner; adapt_parameters_sokoban; adapt_parameters_tetris;
           adapt_parameters_tidybot ] ->
  (rule c).1 = c.
Proof.
  intros Hrule.
  repeat (apply elem_of_cons in Hrule as [->|Hrule]); [..|by apply elem_of_nil in Hrule].
  - unfold adapt_parameters_barman. dict_cases.
  - unfold adapt_parameters_freecell. dict_cases.
  - unfold adapt_parameters_hiking. dict_cases.
  - unfold adapt_parameters_spanner. dict_cases.
  - unfold adapt_parameters_sokoban. dict_cases.
  - unfold adapt_parameters_tetris. dict_cases.
  - unfold adapt_parameters_tidybot. dict_cases.
Qed.

Lemma rejection_rules_do_not_write_witness :
  (adapt_parameters_barman rejected_barman).1 = rejected_barman.
Proof.
  apply (rejection_rules_do_not_write adapt_parameters_barman rejected_barman).
  apply list_elem_of_here.
Defined.

Ltac rule_on_ints :=
  unfold mbind, dictM_bind, mret, dictM_ret, getitem, pure, raise;
  repeat match goal with H : _ !! _ = Some _ |- _ => rewrite H; clear H end;
  cbn; unfold Z.ltb, Z.gtb.

(** X2.  On a configuration whose two counts are ints, each of the four rules
    that compare two counts rejects exactly when its inequality fails, with
    the message of the source, and otherwise returns; freecell needs
    [initial_stacks <= columns], hiking [cars >= couples + 1], spanner
    [spanners >= nuts], tidybot [mintablesize <= maxtablesize]. *)
Theorem comparison_rules_reject_exactly (c : config) (a b : Z) :
  (c !! "initial_stacks" = Some (VInt a) -> c !! "columns" = Some (VInt b) ->
     adapt_parameters_freecell c
     = (c, if b <? a then Raise (IllegalConfiguration [Lit "we need initial_stacks <= columns"])
           else Ok tt))
  /\ (c !! "cars" = Some (VInt a) -> c !! "couples" = Some (VInt b) ->
        adapt_parameters_hiking c
        = (c, if a <? b + 1 then Raise (IllegalConfiguration [Lit "we need cars >= couples + 1"])
              else Ok tt))
  /\ (c !! "spanners" = Some (VInt a) -> c !! "nuts" = Some (VInt b) ->
        adapt_parameters_spanner c
        = (c, if a <? b then Raise (IllegalConfiguration [Lit "we need spanners >= nuts"])
              else Ok tt))
  /\ (c !! "mintablesize" = Some (VInt a) -> c !! "maxtablesize" = Some (VInt b) ->
        adapt_parameters_tidybot c
        = (c, if b <? a
              then Raise (IllegalConfiguration [Lit "mintablesize must be <= maxtablesize"])
              else Ok tt)).
Proof.
  repeat split; intros Ha Hb.
  - unfold adapt_parameters_freecell. rule_on_ints.
    rewrite (Z.compare_antisym a b). by destruct (a ?= b).
  - unfold adapt_parameters_hiking. rule_on_ints. by destruct (a ?= b + 1).
  - unfold adapt_parameters_spanner. rule_on_ints. by destruct (a ?= b).
  - unfold adapt_parameters_tidybot. rule_on_ints.
    rewrite (Z.compare_antisym a b). by destruct (a ?= b).
Qed.

Lemma comparison_rules_reject_exactly_witness :
  adapt_parameters_hiking {[ "cars" := VInt 2; "couples" := VInt 2; "places" := VInt 3 ]}
  = ({[ "cars" := VInt 2; "couples" := VInt 2; "places" := VInt 3 ]},
     Raise (IllegalConfiguration [Lit "we need cars >= couples + 1"])).
Proof.
  exact (proj1 (proj2 (comparison_rules_reject_exactly
           {[ "cars" := VInt 2; "couples" := VInt 2; "places" := VInt 3 ]} 2 2))
           eq_refl eq_refl).
Defined.

(** X3.  The tetris rule rejects exactly the odd numbers of rows, negative ones
    included (in Python [-3 % 2 == 1]), and accepts the even ones. *)
Theorem tetris_rejects_exactly_odd_rows (c : config) (rows : Z) :
  c !! "rows" = Some (VInt rows) ->
  adapt_parameters_tetris c
  = (c, if Z.odd rows then Raise (IllegalConfiguration [Lit "number of rows must be even"])
        else Ok tt).
Proof.
  intros Hrows. unfold adapt_parameters_tetris. rule_on_ints.
  rewrite Zodd_mod. by destruct (rows mod 2 =? 1).
Qed.

Lemma tetris_rejects_exactly_odd_rows_witness :
  adapt_parameters_tetris {[ "rows" := VInt (-3); "block_type" := VStr "1" ]}
  = ({[ "rows" := VInt (-3); "block_type" := VStr "1" ]},
     Raise (IllegalConfiguration [Lit "number of rows must be even"])).
Proof.
  exact (tetris_rejects_exactly_odd_rows {[ "rows" := VInt (-3); "block_type" := VStr "1" ]}
           (-3) eq_refl).
Defined.

(** The decision of the sokoban rule depends on the two ints only. *)
Definition sokoban_accepts (grid_size boxes : Z) : bool :=
  is_ok (adapt_parameters_sokoban
           {[ "grid_size" := VInt grid_size; "boxes" := VInt boxes ]}).2.

Lemma sokoban_decision (c : config) (grid_size boxes : Z) :
  c !! "grid_size" = Some (VInt grid_size) ->
  c !! "boxes" = Some (VInt boxes) ->
  is_ok (adapt_parameters_sokoban c).2 = sokoban_accepts grid_size boxes.
Proof.
  intros Hg Hb. unfold sokoban_accepts.
  set (m := {[ "grid_size" := VInt grid_size; "boxes" := VInt boxes ]} : config).
  assert (Hg' : m !! "grid_size" = Some (VInt grid_size)) by apply lookup_insert_eq.
  assert (Hb' : m !! "boxes" = Some (VInt boxes)).
  { unfold m. rewrite lookup_insert_ne by done. apply lookup_insert_eq. }
  clearbody m. unfold adapt_parameters_sokoban.
  unfold mbind, dictM_bind, mret, dictM_ret, getitem, pure, raise.
  rewrite Hg, Hg'.
  repeat (case_match; simplify_eq/=); congruence.
Qed.

Definition zrange (lower : Z) (count : nat) : list Z :=
  (fun i : nat => lower + Z.of_nat i) <$> seq 0 count.

Lemma zrange_In (lower z : Z) (count : nat) :
  lower <= z < lower + Z.of_nat count -> In z (zrange lower count).
Proof.
  intros Hz. unfold zrange. apply list_elem_of_In, list_elem_of_fmap.
  exists (Z.to_nat (z - lower)). split; [lia|].
  apply list_elem_of_In, in_seq. lia.
Qed.

Lemma sokoban_table :
  forallb (fun g =>
    forallb (fun b => Bool.eqb (sokoban_accepts g b) (9 * b <=? g * g - 5 * g + 6))
      (zrange 0 101))
    (zrange 6 25) = true.
Proof. vm_compute. reflexivity. Qed.

(** X4.  The sokoban rule on ints.  Up to grid size 5 it accepts at most two
    boxes.  Above, the bound is the float [(g*g - 5*g + 6) / 9.0]; for grid
    sizes up to 30 and up to 100 boxes, the rounding of that division
    never changes the decision: the rule accepts exactly when
    [9 * boxes <= g*g - 5*g + 6]. *)
Theorem sokoban_accepts_exactly (c : config) (grid_size boxes : Z) :
  c !! "grid_size" = Some (VInt grid_size) ->
  c !! "boxes" = Some (VInt boxes) ->
  (grid_size <= 5 -> is_ok (adapt_parameters_sokoban c).2 = (boxes <=? 2))
  /\ (5 < grid_size <= 30 -> 0 <= boxes <= 100 ->
      is_ok (adapt_parameters_sokoban c).2
      = (9 * boxes <=? grid_size * grid_size - 5 * grid_size + 6)).
Proof.
  intros Hg Hb. split.
  - intros Hsmall. unfold adapt_parameters_sokoban.
    unfold mbind, dictM_bind, mret, dictM_ret, getitem, pure, raise.
    rewrite Hg. cbn [py_le py_compare mbind result_bind mret result_ret].
    destruct (grid_size ?= 5) eqn:Hcmp;
      [| |apply Z.compare_gt_iff in Hcmp; lia].
    all: rewrite Hb; cbn; unfold Z.leb; by destruct (boxes ?= 2).
  - intros Hgrid Hboxes. rewrite (sokoban_decision c grid_size boxes Hg Hb).
    pose proof sokoban_table as Htable.
    rewrite forallb_forall in Htable.
    specialize (Htable grid_size (zrange_In 6 grid_size 25 ltac:(lia))).
    rewrite forallb_forall in Htable.
    specialize (Htable boxes (zrange_In 0 boxes 101 ltac:(lia))).
    by apply Bool.eqb_prop in Htable.
Qed.

Lemma sokoban_accepts_exactly_witness :
  is_ok (adapt_parameters_sokoban
           {[ "grid_size" := VInt 8; "boxes" := VInt 4; "walls" := VInt 0 ]}).2
  = (9 * 4 <=? 8 * 8 - 5 * 8 + 6).
Proof.
  refine (proj2 (sokoban_accepts_exactly
            {[ "grid_size" := VInt 8; "boxes" := VInt 4; "walls" := VInt 0 ]} 8 4
            eq_refl eq_refl) _ _); lia.
Defined.

(** ** What the repair rules leave *)

Lemma py_min_ints (a b : Z) : py_min (VInt a) (VInt b) = Ok (VInt (Z.min a b)).
Proof.
  unfold py_min, py_lt. cbn. unfold Z.min. rewrite (Z.compare_antisym a b).
  by destruct (a ?= b).
Qed.

Lemma py_max_ints (a b : Z) : py_max (VInt a) (VInt b) = Ok (VInt (Z.max a b)).
Proof.
  unfold py_max, py_gt. cbn. unfold Z.max. rewrite (Z.compare_antisym a b).
  by destruct (a ?= b).
Qed.

(** X5.  On ints, the floortile rule sets [robots] to the smaller of [robots]
    and [columns] and changes no other key; afterwards [robots <= columns]. *)
Theorem floortile_clamps_robots (c : config) (robots columns : Z) :
  c !! "robots" = Some (VInt robots) ->
  c !! "columns" = Some (VInt columns) ->
  adapt_parameters_floortile c = (<["robots" := VInt (Z.min robots columns)]> c, Ok tt)
  /\ Z.min robots columns <= columns
  /\ (robots <= columns -> (adapt_parameters_floortile c).1 = c).
Proof.
  intros Hr Hc.
  assert (Hrun : adapt_parameters_floortile c
                 = (<["robots" := VInt (Z.min robots columns)]> c, Ok tt)).
  { unfold adapt_parameters_floortile.
    erewrite !getitem_bind by eassumption.
    erewrite pure_bind by apply py_min_ints. done. }
  split; [done|]. split; [lia|].
  intros Hle. rewrite Hrun. cbn. rewrite Z.min_l by done. by apply insert_id.
Qed.

Lemma floortile_clamps_robots_witness :
  adapt_parameters_floortile {[ "rows" := VInt 2; "columns" := VInt 3; "robots" := VInt 6 ]}
  = (<["robots" := VInt (Z.min 6 3)]>
       {[ "rows" := VInt 2; "columns" := VInt 3; "robots" := VInt 6 ]}, Ok tt).
Proof.
  exact (proj1 (floortile_clamps_robots
           {[ "rows" := VInt 2; "columns" := VInt 3; "robots" := VInt 6 ]} 6 3
           eq_refl eq_refl)).
Defined.

(** X6.  On a configuration with ints for [x], [y], [shapes] and [extra_keys]
    and a float percentage whose product with [x * y] truncates to the int
    [cells], the grid rule clamps [shapes] to [x*y - 1], sets [keys] to
    [shapes + extra_keys] clamped likewise, and sets [locks] to the larger
    of [cells] and the clamped [shapes]; no other key changes.  So
    afterwards [shapes <= x*y - 1], [keys <= x*y - 1] and [locks >= shapes]. *)
Theorem grid_rule_result (c : config) (x y shapes extra_keys cells : Z) (pct : Float64.float) :
  c !! "x" = Some (VInt x) ->
  c !! "y" = Some (VInt y) ->
  c !! "shapes" = Some (VInt shapes) ->
  c !! "extra_keys" = Some (VInt extra_keys) ->
  c !! "percentage_cells_locked" = Some (VFloat pct) ->
  py_mul (VInt (x * y)) (VFloat pct) ≫= py_int = Ok (VInt cells) ->
  let shapes' := Z.min (x * y - 1) shapes in
  let keys' := Z.min (x * y - 1) (shapes' + extra_keys) in
  let locks' := Z.max cells shapes' in
  adapt_parameters_grid c
  = (<["locks" := VInt locks']> (<["keys" := VInt keys']> (<["shapes" := VInt shapes']> c)),
     Ok tt)
  /\ shapes' <= x * y - 1 /\ keys' <= x * y - 1 /\ shapes' <= locks'.
Proof.
  intros Hx Hy Hs He Hp Hcells shapes' keys' locks'.
  split; [|lia].
  unfold mbind, result_bind in Hcells.
  destruct (py_mul (VInt (x * y)) (VFloat pct)) as [product|e] eqn:Hproduct; [|done].
  unfold adapt_parameters_grid.
  erewrite !getitem_bind by eassumption.
  erewrite pure_bind by reflexivity. erewrite pure_bind by reflexivity.
  erewrite getitem_bind by eassumption.
  erewrite pure_bind by apply py_min_ints. rewrite setitem_bind.
  erewrite !getitem_bind by dict_lookup.
  erewrite pure_bind by reflexivity. erewrite pure_bind by reflexivity.
  erewrite !getitem_bind by dict_lookup.
  erewrite pure_bind by reflexivity.
  erewrite pure_bind by apply py_min_ints. rewrite setitem_bind.
  erewrite !getitem_bind by dict_lookup.
  erewrite pure_bind by reflexivity.
  erewrite getitem_bind by dict_lookup.
  erewrite pure_bind by exact Hproduct.
  erewrite pure_bind by exact Hcells. rewrite setitem_bind.
  erewrite !getitem_bind by dict_lookup.
  erewrite pure_bind by apply py_max_ints.
  unfold setitem. by rewrite insert_insert_eq.
Qed.

Definition grid_sample : config :=
  {[ "x" := VInt 2; "y" := VInt 2; "prob_key_in_goal" := VFloat (Float64.lit 5 1);
     "shapes" := VInt 2; "extra_keys" := VInt 2;
     "percentage_cells_locked" := VFloat (Float64.lit 9 1) ]}.

Lemma grid_rule_result_witness :
  adapt_parameters_grid grid_sample
  = (<["locks" := VInt (Z.max 3 (Z.min (2 * 2 - 1) 2))]>
       (<["keys" := VInt (Z.min (2 * 2 - 1) (Z.min (2 * 2 - 1) 2 + 2))]>
          (<["shapes" := VInt (Z.min (2 * 2 - 1) 2)]> grid_sample)),
     Ok tt).
Proof.
  refine (proj1 (grid_rule_result grid_sample 2 2 2 2 3 (Float64.lit 9 1)
                   eq_refl eq_refl eq_refl eq_refl eq_refl _)).
  vm_compute. reflexivity.
Defined.

Lemma locks_table :
  forallb (fun xy =>
    forallb (fun k =>
      match py_mul (VInt xy) (VFloat (Float64.lit k 1)) ≫= py_int with
      | Ok (VInt cells) => cells =? xy * k / 10
      | _ => false
      end) [3; 6; 9])
    (zrange 1 100) = true.
Proof. vm_compute. reflexivity. Qed.

(** X7.  The number of locked cells is computed in floating point, as
    [int(x * y * percentage)].  For the three percentages of the registry
    (0.3, 0.6, 0.9) and up to 100 cells, the result is the exact integer
    part of [cells * k / 10]: the representation error of the percentage
    never costs a lock. *)
Theorem grid_locked_cells_exact (cells k : Z) :
  1 <= cells <= 100 ->
  k = 3 \/ k = 6 \/ k = 9 ->
  py_mul (VInt cells) (VFloat (Float64.lit k 1)) ≫= py_int = Ok (VInt (cells * k / 10)).
Proof.
  intros Hcells Hk.
  pose proof locks_table as Htable.
  rewrite forallb_forall in Htable.
  specialize (Htable cells (zrange_In 1 cells 100 ltac:(lia))).
  rewrite forallb_forall in Htable.
  assert (Hin : In k [3; 6; 9]) by (cbn; lia).
  specialize (Htable k Hin).
  destruct (py_mul _ _ ≫= py_int) as [[z| |]|]; try done.
  apply Z.eqb_eq in Htable. by subst.
Qed.

Lemma grid_locked_cells_exact_witness :
  py_mul (VInt 15) (VFloat (Float64.lit 6 1)) ≫= py_int = Ok (VInt (15 * 6 / 10)).
Proof.
  apply (grid_locked_cells_exact 15 6); [lia|]. right. left. reflexivity.
Defined.

(* ===================================================================== *)
(** * Further properties of the driver *)
(* ===================================================================== *)

(** X8.  A successful attempt.  The generator and the collector are both given
    the configuration that [adapt_parameters] returned (not the one of the
    grid), the collector gets the directory that the generator returned and
    [copy_logs=False], and whatever the collector returns or raises is the
    outcome of [generate_task]: its exceptions are not handled. *)
Theorem generate_task_success gen coll gens (d : Domain) (cfg : nat) (c c' : config)
    (seed : Z) tmp out tl (st : state) (fs1 fs2 : filesystem) (plan_dir : string)
    (r : result unit) :
  heap st !! cfg = Some c ->
  adapted d c = Ok c' ->
  gen gens d c' seed tmp tl (fs st) = (fs1, Ok plan_dir) ->
  coll d c' seed plan_dir out false fs1 = (fs2, r) ->
  generate_task gen coll gens d cfg seed tmp out tl st
  = (State (heap st ++ copies d c) fs2
       (trace st ++ [Call (adapt_parameters_call (name d) c);
                     Log INFO (Create_instance c' seed);
                     Call (generate_input_files_call (name d) c' seed);
                     Call (collect_task_call (name d) c' seed plan_dir)]),
     r).
Proof.
  intros Hc Hok Hgen Hcoll.
  rewrite (generate_task_run gen coll gens d tmp out tl cfg c seed st Hc).
  unfold attempt. by rewrite Hok, Hgen, Hcoll.
Qed.

Definition floortile_sample : config :=
  {[ "rows" := VInt 2; "columns" := VInt 3; "robots" := VInt 6 ]}.

Lemma generate_task_success_witness :
  generate_task gen_stub coll_stub "generators" floortile_domain 0 0 "out/tmp" "out" None
    (State [floortile_sample] ∅ [])
  = (State ([floortile_sample] ++ copies floortile_domain floortile_sample)
       (<["out/tmp" := Dir]> ∅)
       ([] ++ [Call (adapt_parameters_call "floortile" floortile_sample);
               Log INFO (Create_instance (<["robots" := VInt 3]> floortile_sample) 0);
               Call (generate_input_files_call "floortile"
                       (<["robots" := VInt 3]> floortile_sample) 0);
               Call (collect_task_call "floortile"
                       (<["robots" := VInt 3]> floortile_sample) 0 "out/tmp/plan")]),
     Ok tt).
Proof.
  exact (generate_task_success gen_stub coll_stub "generators" floortile_domain 0
           floortile_sample (<["robots" := VInt 3]> floortile_sample) 0 "out/tmp" "out" None
           (State [floortile_sample] ∅ []) (<["out/tmp" := Dir]> ∅) (<["out/tmp" := Dir]> ∅)
           "out/tmp/plan" (Ok tt) eq_refl eq_refl eq_refl eq_refl).
Defined.

(** Which exceptions [generate_task] lets through. *)
Definition handled_by_adapt (e : exn) : bool :=
  match e with IllegalConfiguration _ => true | _ => false end.

Definition handled_by_generation (e : exn) : bool :=
  match e with CalledProcessError _ | TimeoutExpired => true | _ => false end.

(** X9.  Only the three expected failures are handled.  Any other exception of
    the rule (a [KeyError] for a missing parameter, a [TypeError]) or of the
    generator (a missing executable, say) leaves [generate_task] as it is,
    with nothing logged; and an exception that leaves the loop of [main]
    leaves [main]: the remaining attempts are not made, [rmtree] is not
    called, so the temporary directory stays, and the number of
    configurations is not printed. *)
Theorem unexpected_exceptions_end_the_run gen coll (args : Namespace) (d : Domain)
    (grid : list config) (st : state) :
  (forall gens cfg c seed tmp out tl st e,
      heap st !! cfg = Some c ->
      adapted d c = Raise e ->
      handled_by_adapt e = false ->
      generate_task gen coll gens d cfg seed tmp out tl st
      = (State (heap st ++ copies d c) (fs st)
           (trace st ++ [Call (adapt_parameters_call (name d) c)]), Raise e))
  /\ (forall gens cfg c c' seed tmp out tl st fs1 e,
        heap st !! cfg = Some c ->
        adapted d c = Ok c' ->
        gen gens d c' seed tmp tl (fs st) = (fs1, Raise e) ->
        handled_by_generation e = false ->
        generate_task gen coll gens d cfg seed tmp out tl st
        = (State (heap st ++ copies d c) fs1
             (trace st ++ [Call (adapt_parameters_call (name d) c);
                           Log INFO (Create_instance c' seed);
                           Call (generate_input_files_call (name d) c' seed)]),
           Raise e))
  /\ (get_domain args.(domain) = Ok d ->
      enumerated_grid (attributes d) = Ok grid ->
      args.(dry_run) = false ->
      forall st1 e,
        generation_loop gen coll args d grid
          (State (heap st) (fs st) (trace st ++ [Print (Out_parameters (attributes d))]))
        = (st1, Raise e) ->
        main gen coll args st = (st1, Raise e)).
Proof.
  repeat split.
  - intros gens cfg c seed tmp out tl st0 e Hc Hraise He.
    rewrite (generate_task_run gen coll gens d tmp out tl cfg c seed st0 Hc).
    unfold attempt. rewrite Hraise. by destruct e.
  - intros gens cfg c c' seed tmp out tl st0 fs1 e Hc Hok Hgen He.
    rewrite (generate_task_run gen coll gens d tmp out tl cfg c seed st0 Hc).
    unfold attempt. rewrite Hok, Hgen. by destruct e.
  - intros Hd Hgrid Hdry st1 e Hloop.
    rewrite (main_to_loop gen coll args d grid st Hd Hgrid), Hdry.
    cbv zeta. by rewrite Hloop.
Qed.

(** A grid configuration that lacks [extra_keys]: the rule has clamped
    [shapes] on its copy when it raises. *)
Definition grid_without_extra_keys : config :=
  {[ "x" := VInt 2; "y" := VInt 2; "shapes" := VInt 5 ]}.

Lemma unexpected_exceptions_end_the_run_witness :
  generate_task gen_stub coll_stub "generators" grid_domain 0 0 "out/tmp" "out" None
    (State [grid_without_extra_keys] ∅ [])
  = (State ([grid_without_extra_keys] ++ copies grid_domain grid_without_extra_keys) ∅
       ([] ++ [Call (adapt_parameters_call "grid" grid_without_extra_keys)]),
     Raise (KeyError "extra_keys")).
Proof.
  exact (proj1 (unexpected_exceptions_end_the_run gen_stub coll_stub (run_of "grid" 1)
                  grid_domain [] empty_state)
           "generators" 0%nat grid_without_extra_keys 0 "out/tmp" "out" None
           (State [grid_without_extra_keys] ∅ []) (KeyError "extra_keys")
           eq_refl eq_refl eq_refl).
Defined.

(** The grid rule is not atomic: when a key is missing, the keys written
    before the lookup that fails stay written (on the copy that
    [Domain.adapt_parameters] made, which is dropped). *)
Example grid_rule_partial_update :
  adapt_parameters_grid grid_without_extra_keys
  = (<["shapes" := VInt 3]> grid_without_extra_keys, Raise (KeyError "extra_keys")).
Proof. reflexivity. Qed.



(** X11.  With [--num-random-seeds] zero or negative no attempt is made at all:
    [main] allocates the dicts of the grid, then goes straight to the
    removal of the temporary directory, which nothing has created. *)
Theorem no_seeds_no_attempts gen coll (args : Namespace) (d : Domain)
    (grid : list config) (st : state) :
  get_domain args.(domain) = Ok d ->
  enumerated_grid (attributes d) = Ok grid ->
  args.(dry_run) = false ->
  args.(num_random_seeds) <= 0 ->
  exists made,
    main gen coll args st
    = (shutil_rmtree (path_join args.(destdir) "tmp") ;;
       emit (Print (Out_number_of_configurations (Z.of_nat (length grid)))))
        (State (heap st ++ made) (fs st)
           (trace st ++ [Print (Out_parameters (attributes d))])).
Proof.
  intros Hd Hgrid Hdry Hseeds.
  rewrite (main_to_loop gen coll args d grid st Hd Hgrid), Hdry. cbv zeta.
  set (entry := State (heap st) (fs st) _).
  destruct (generation_loop_run gen coll args d grid entry) as [made Hloop].
  rewrite Hloop.
  assert (Hnone : schedule grid (range args.(num_random_seeds)) = []).
  { unfold range. replace (Z.to_nat (num_random_seeds args)) with 0%nat by lia.
    unfold schedule. cbn. clear. by induction grid. }
  rewrite Hnone. cbn [attempts]. exists made. by rewrite app_nil_r.
Qed.

Lemma no_seeds_no_attempts_witness :
  exists made,
    main gen_stub coll_stub (run_of "barman" (-1)) empty_state
    = (shutil_rmtree (path_join "out" "tmp") ;;
       emit (Print (Out_number_of_configurations (Z.of_nat (length barman_grid)))))
        (State ([] ++ made) ∅ ([] ++ [Print (Out_parameters (attributes barman))])).
Proof.
  apply (no_seeds_no_attempts gen_stub coll_stub (run_of "barman" (-1)) barman
           barman_grid empty_state get_domain_barman generate_grid_barman eq_refl).
  cbn. lia.
Defined.

(** X12.  A dry run of any domain whose grid is built: the parameters are
    printed and [main] returns; no dict is allocated, no file is touched,
    nothing is logged and no function of [utils] is called. *)
Theorem dry_run_touches_nothing gen coll (args : Namespace) (d : Domain)
    (grid : list config) (st : state) :
  get_domain args.(domain) = Ok d ->
  enumerated_grid (attributes d) = Ok grid ->
  args.(dry_run) = true ->
  main gen coll args st
  = (State (heap st) (fs st) (trace st ++ [Print (Out_parameters (attributes d))]), Ok tt).
Proof.
  intros Hd Hgrid Hdry.
  by rewrite (main_to_loop gen coll args d grid st Hd Hgrid), Hdry.
Qed.

Lemma dry_run_touches_nothing_witness :
  main gen_stub coll_stub
    {| generators_dir := "generators"; domain := "barman"; destdir := "out";
       debug := true; dry_run := true; generator_time_limit := Some 10;
       num_random_seeds := 5 |} empty_state
  = (State [] ∅ ([] ++ [Print (Out_parameters (attributes barman))]), Ok tt).
Proof.
  exact (dry_run_touches_nothing gen_stub coll_stub
           {| generators_dir := "generators"; domain := "barman"; destdir := "out";
              debug := true; dry_run := true; generator_time_limit := Some 10;
              num_random_seeds := 5 |} barman barman_grid empty_state
           get_domain_barman generate_grid_barman eq_refl).
Defined.

(* ===================================================================== *)
(** * Further properties of the parameter descriptors *)
(* ===================================================================== *)

(** X13.  Whatever the bounds and the precision, a float parameter that
    [get_float] returns is of one of two kinds.  With a precision above
    zero it is categorical, its choices are floats that all lie within
    [lower, upper] (by the final filter), there is at least one, and the
    default is the first.  With no precision, or one that is not above
    zero, it is the continuous range with default [lower]. *)
Theorem get_float_result (name : string) (lower upper : Float64.float) (log : bool)
    (precision : option Float64.float) (hp : hyperparameter) :
  get_float name lower upper log precision = Ok hp ->
  (exists p v values,
      precision = Some p /\ py_gt (VFloat p) (VInt 0) = Ok true
      /\ hp = CategoricalHyperparameter name (VFloat <$> (v :: values)) (VFloat v)
      /\ Forall (fun x => Float64.leb lower x = true /\ Float64.leb x upper = true)
           (v :: values))
  \/ (hp = UniformFloatHyperparameter name lower upper lower log
      /\ (precision = None
          \/ exists p, precision = Some p /\ py_gt (VFloat p) (VInt 0) = Ok false)).
Proof.
  assert (Hrange : UniformFloatHyperparameter_init name lower upper lower log = Ok hp ->
                   hp = UniformFloatHyperparameter name lower upper lower log).
  { unfold UniformFloatHyperparameter_init.
    destruct (Float64.leb upper lower); [discriminate|].
    destruct (log && Float64.leb lower (Float64.of_Z 0)); [discriminate|].
    destruct (Float64.ltb lower lower || Float64.ltb upper lower); [discriminate|].
    by intros [= <-]. }
  unfold get_float. destruct precision as [p|]; [|intros Hhp; right; eauto].
  unfold mbind at 1. unfold result_bind at 1.
  destruct (py_gt (VFloat p) (VInt 0)) as [[]|e] eqn:Hgt; [| |done].
  - unfold mbind, result_bind.
    destruct (Numpy.arange _ _ _) as [raw|e]; [|done].
    set (kept := List.filter _ _).
    assert (Hkept : Forall (fun x => Float64.leb lower x = true /\ Float64.leb x upper = true)
                      kept).
    { apply Forall_forall. intros x Hx. apply list_elem_of_In in Hx.
      apply filter_In in Hx as [_ Hx]. by apply andb_true_iff in Hx. }
    destruct kept as [|v values]; [done|].
    intros [= <-]. left. by exists p, v, values.
  - intros Hhp. right. split; [by apply Hrange|]. right. by exists p.
Qed.

Lemma get_float_result_witness :
  (exists p v values,
      Some (Float64.lit 2 1) = Some p /\ py_gt (VFloat p) (VInt 0) = Ok true
      /\ CategoricalHyperparameter "gluten_factor"
           (VFloat <$> [Float64.lit 2 1; Float64.lit 4 1; Float64.lit 6 1; Float64.lit 8 1])
           (VFloat (Float64.lit 2 1))
         = CategoricalHyperparameter "gluten_factor" (VFloat <$> (v :: values)) (VFloat v)
      /\ Forall (fun x => Float64.leb (Float64.lit 2 1) x = true
                          /\ Float64.leb x (Float64.lit 8 1) = true) (v :: values))
  \/ (CategoricalHyperparameter "gluten_factor"
        (VFloat <$> [Float64.lit 2 1; Float64.lit 4 1; Float64.lit 6 1; Float64.lit 8 1])
        (VFloat (Float64.lit 2 1))
      = UniformFloatHyperparameter "gluten_factor" (Float64.lit 2 1) (Float64.lit 8 1)
          (Float64.lit 2 1) false
      /\ (Some (Float64.lit 2 1) = None
          \/ exists p, Some (Float64.lit 2 1) = Some p
                       /\ py_gt (VFloat p) (VInt 0) = Ok false)).
Proof.
  apply (get_float_result "gluten_factor" (Float64.lit 2 1) (Float64.lit 8 1) false
           (Some (Float64.lit 2 1))).
  vm_compute. reflexivity.
Defined.

(** A range with the bounds the wrong way round has no admissible float:
    [values[0]] raises [IndexError]. *)
Example get_float_empty :
  get_float "p" (Float64.lit 20 1) (Float64.lit 10 1) false (Some (Float64.lit 5 1))
  = Raise IndexError.
Proof. vm_compute. reflexivity. Qed.

Lemma stepped_bounds (lower upper step z : Z) :
  0 < step -> lower <= upper ->
  z ∈ stepped lower step (Z.to_nat ((upper - lower) / step + 1)) ->
  lower <= z <= upper /\ (z - lower) mod step = 0.
Proof.
  intros Hstep Hle Hz. unfold stepped in Hz.
  apply list_elem_of_fmap in Hz as (i & -> & Hi).
  apply list_elem_of_In, in_seq in Hi.
  assert (Hq : 0 <= (upper - lower) / step) by (apply Z.div_pos; lia).
  assert (Hi' : Z.of_nat i <= (upper - lower) / step) by lia.
  pose proof (Z.mul_div_le (upper - lower) step Hstep) as Hmul.
  split; [nia|].
  replace (lower + Z.of_nat i * step - lower) with (Z.of_nat i * step) by lia.
  apply Z.mod_mul. lia.
Qed.

(** X14.  [get_int] outside the ordinary case.  A step of 0 raises [ValueError]
    (from [range]).  A step above 1 with [upper < lower] leaves no choice
    and raises [IndexError] (from [choices[0]]).  With a step of 1 the
    bounds go to the constructor of the integer range as they are, and it
    raises [ValueError] unless [lower < upper]: a range of a single value
    cannot be written with [get_int] and a step of 1 (the registry has a
    constant where one was meant), while with a step above 1 it is a
    categorical parameter with one choice.  With the bounds in order, and a
    lower bound above zero if the scale is logarithmic, the range is
    returned with [lower] as its default.  With a step above 1 and
    [lower <= upper], every choice lies within [lower, upper] and differs
    from [lower] by a multiple of the step. *)
Theorem get_int_edge_cases (name : string) (lower upper : Z) (log : bool) (step_size : Z) :
  (step_size = 0 -> get_int name lower upper log step_size = Raise ValueError)
  /\ (1 < step_size -> upper < lower ->
      get_int name lower upper log step_size = Raise IndexError)
  /\ (step_size = 1 -> upper <= lower ->
      get_int name lower upper log step_size = Raise ValueError)
  /\ (step_size = 1 -> lower < upper -> (log = true -> 0 < lower) ->
      get_int name lower upper log step_size
      = Ok (UniformIntegerHyperparameter name lower upper lower log))
  /\ (1 < step_size -> lower <= upper ->
      exists choices,
        get_int name lower upper log step_size
        = Ok (CategoricalHyperparameter name (VInt <$> choices) (VInt lower))
        /\ forall z, z ∈ choices -> lower <= z <= upper /\ (z - lower) mod step_size = 0).
Proof.
  repeat split.
  - by intros ->.
  - intros Hstep Hempty. unfold get_int, py_range.
    destruct (Z.eqb_spec step_size 1) as [|_]; [lia|].
    destruct (Z.eqb_spec step_size 0) as [|_]; [lia|].
    destruct (Z.ltb_spec 0 step_size) as [_|]; [|lia].
    assert (Hn : (upper + 1 - lower + step_size - 1) / step_size <= 0).
    { apply Z.lt_succ_r. apply Z.div_lt_upper_bound; lia. }
    replace (Z.to_nat _) with 0%nat by lia. done.
  - intros -> Hle. unfold get_int, UniformIntegerHyperparameter_init. cbn [Z.eqb Pos.eqb].
    destruct (Z.leb_spec upper lower) as [_|]; [reflexivity|lia].
  - intros -> Hlt Hlog. unfold get_int, UniformIntegerHyperparameter_init. cbn [Z.eqb Pos.eqb].
    destruct (Z.leb_spec upper lower) as [|_]; [lia|].
    assert (Hscale : log && (lower <=? 0) = false).
    { destruct log; [|reflexivity]. cbn [andb]. apply Z.leb_gt. by apply Hlog. }
    rewrite Hscale, Z.ltb_irrefl.
    destruct (Z.ltb_spec upper lower) as [|_]; [lia|reflexivity].
  - intros Hstep Hle.
    exists (stepped lower step_size (Z.to_nat ((upper - lower) / step_size + 1))).
    split.
    + unfold get_int. destruct (Z.eqb_spec step_size 1) as [|_]; [lia|].
      rewrite py_range_positive by lia.
      assert (Hpos : 0 <= (upper - lower) / step_size) by (apply Z.div_pos; lia).
      destruct (Z.to_nat ((upper - lower) / step_size + 1)) as [|k] eqn:Hk; [lia|].
      cbn. by rewrite Z.add_0_r.
    + intros z. apply stepped_bounds; lia.
Qed.

Lemma get_int_edge_cases_witness :
  get_int "days" 300 60 false 20 = Raise IndexError.
Proof.
  apply (proj1 (proj2 (get_int_edge_cases "days" 300 60 false 20))); lia.
Defined.

(** The range the registry has commented out for the n-puzzle. *)
Example get_int_size_3_3 : get_int "size" 3 3 false 1 = Raise ValueError.
Proof. reflexivity. Qed.

(* ===================================================================== *)
(** * When the generator fails *)
(* ===================================================================== *)

(** X15.  The failure paths of [generate_problem].  (1) In the standard-output
    convention the problem file has been opened before the process runs, so
    after a non-zero exit or a timeout it exists and holds what the process
    had written; the exception is raised and the domain file is not moved.
    (2) In the fixed-name convention a timeout raises before anything is
    moved.  (3) If the process exits with status 0 without having written
    [tmp-problem.pddl], the move raises [FileNotFoundError], which is not
    one of the exceptions that [generate_task] handles. *)
Theorem generate_problem_failures
    (run_process : list string -> option Z -> filesystem -> filesystem * process_end)
    (self : Domain) (command : list string) (problem_file domain_file : string)
    (timeout : option Z) (st : state) :
  let template := command_template self in
  let run_to_file := Call (subprocess_run_call command (Some problem_file) timeout) in
  let run_plain := Call (subprocess_run_call command None timeout) in
  (str_contains TMP_PROBLEM template = false ->
   fs st !! problem_file <> Some Dir ->
   forall fs1 e,
     run_process command timeout (<[problem_file := File EmptyString]> (fs st)) = (fs1, e) ->
     (forall out, e <> Exited 0 out) ->
     generate_problem run_process self command problem_file domain_file timeout st
     = (State (heap st)
          (<[problem_file := File (match e with Exited _ out | Timed_out out => out end)]> fs1)
          (trace st ++ [run_to_file]),
        Raise (match e with
               | Exited rc _ => CalledProcessError rc
               | Timed_out _ => TimeoutExpired
               end)))
  /\ (str_contains TMP_PROBLEM template = true ->
      forall fs1 out,
        run_process command timeout (fs st) = (fs1, Timed_out out) ->
        generate_problem run_process self command problem_file domain_file timeout st
        = (State (heap st) fs1 (trace st ++ [run_plain]), Raise TimeoutExpired))
  /\ (str_contains TMP_PROBLEM template = true ->
      forall fs1 out,
        run_process command timeout (fs st) = (fs1, Exited 0 out) ->
        fs1 !! TMP_PROBLEM = None ->
        generate_problem run_process self command problem_file domain_file timeout st
        = (State (heap st) fs1
             (trace st ++ [run_plain; Call (move_call TMP_PROBLEM problem_file)]),
           Raise (FileNotFoundError TMP_PROBLEM))
        /\ handled_by_generation (FileNotFoundError TMP_PROBLEM) = false).
Proof.
  intros template run_to_file run_plain. repeat split.
  - intros Hin Hfile fs1 e Hrun Hfail.
    unfold generate_problem. fold template. rewrite Hin.
    rewrite !py_bind_run, (open_w_file _ _ Hfile).
    unfold subprocess_run, emit, on_fs, mbind, py_bind. cbn. rewrite Hrun.
    destruct e as [rc out|out]; [|done].
    destruct rc; [by destruct (Hfail out)|done..].
  - intros Hin fs1 out Hrun.
    unfold generate_problem. fold template. rewrite Hin.
    rewrite !py_bind_run.
    unfold subprocess_run at 1. unfold emit, on_fs, mbind, py_bind. cbn.
    by rewrite Hrun.
  - unfold generate_problem. fold template. rewrite H.
    rewrite !py_bind_run.
    unfold subprocess_run at 1. unfold emit, on_fs, mbind, py_bind. cbn.
    rewrite H0. unfold shutil_move, emit, on_fs, mbind, py_bind. cbn.
    rewrite H1. by rewrite <- app_assoc.
Qed.

(** A generator that writes half a problem and exits with status 3. *)
Definition failing_process (command : list string) (timeout : option Z) (fs0 : filesystem)
  : filesystem * process_end :=
  (fs0, Exited 3 "(define (problem").

Lemma generate_problem_failures_witness :
  generate_problem failing_process ferry ["ferry"] "p.pddl" "d.pddl" None empty_state
  = (State [] (<["p.pddl" := File "(define (problem"]> (<["p.pddl" := File EmptyString]> ∅))
       ([] ++ [Call (subprocess_run_call ["ferry"] (Some "p.pddl") None)]),
     Raise (CalledProcessError 3)).
Proof.
  refine (proj1 (generate_problem_failures failing_process ferry ["ferry"] "p.pddl" "d.pddl"
                   None empty_state) eq_refl _ _ (Exited 3 "(define (problem") eq_refl _).
  - vm_compute. discriminate.
  - intros out. discriminate.
Defined.

(* ===================================================================== *)
(** * Domain.get_generator_command *)
(* ===================================================================== *)

Module Command.

(** [str(v)] for an int or a str.  The text that [str] gives for a float
    (the shortest decimal that reads back as the same double) is a
    parameter: [float_str]. *)
Definition py_str (float_str : Float64.float -> string) (v : value) : string :=
  match v with
  | VInt z => pretty z
  | VStr s => s
  | VFloat x => float_str x
  end.

Definition is_char (a b : ascii) : bool := Ascii.eqb a b.

(** Characters that make a replacement field more than a keyword name
    (attribute access, indexing, conversion, format spec). *)
Definition beyond_a_name (ch : ascii) : bool :=
  is_char ch "."%char || is_char ch "["%char || is_char ch "!"%char || is_char ch ":"%char.

Definition is_digit (ch : ascii) : bool :=
  (48 <=? nat_of_ascii ch)%nat && (nat_of_ascii ch <=? 57)%nat.

Fixpoint all_digits (s : string) : bool :=
  match s with
  | EmptyString => true
  | String ch rest => is_digit ch && all_digits rest
  end.

(** The method [format] of a template applied to keyword arguments, left
    to right, for templates whose
    replacement fields are plain names: [open] is the name of the field
    being read, if one is.  Doubled braces are literal braces; a field
    whose name is no key raises [KeyError]; a brace that is not closed, or
    a single closing brace, raises [ValueError]; an empty field and a
    field that is a number are positional and raise [IndexError], as there
    are no positional arguments (numbers of more than 18 digits are left
    out). *)
Fixpoint format_from (float_str : Float64.float -> string) (kwargs : gmap string value)
    (template : string) (open : option string) : result string :=
  match template with
  | EmptyString =>
      match open with
      | None => Ok EmptyString
      | Some _ => Raise ValueError
      end
  | String ch rest =>
      match open with
      | Some field =>
          if is_char ch "}"%char then
            match field with
            | EmptyString => Raise IndexError
            | _ =>
                if all_digits field then
                  if (String.length field <=? 18)%nat then Raise IndexError
                  else Raise (Unmodelled "positional index of more than 18 digits")
                else
                  match kwargs !! field with
                  | None => Raise (KeyError field)
                  | Some v =>
                      s ← format_from float_str kwargs rest None;
                      mret (String.append (py_str float_str v) s)
                  end
            end
          else if is_char ch "{"%char then Raise ValueError
          else if beyond_a_name ch then Raise (Unmodelled "field that is not a plain name")
          else format_from float_str kwargs rest
                 (Some (String.append field (String ch EmptyString)))
      | None =>
          if is_char ch "{"%char then
            match rest with
            | String ch' rest' =>
                if is_char ch' "{"%char then
                  s ← format_from float_str kwargs rest' None; mret (String "{" s)
                else format_from float_str kwargs rest (Some EmptyString)
            | EmptyString => Raise ValueError
            end
          else if is_char ch "}"%char then
            match rest with
            | String ch' rest' =>
                if is_char ch' "}"%char then
                  s ← format_from float_str kwargs rest' None; mret (String "}" s)
                else Raise ValueError
            | EmptyString => Raise ValueError
            end
          else s ← format_from float_str kwargs rest None; mret (String ch s)
      end
  end.

(** [template.format(seed=seed, **parameters)]: a key [seed] among the
    parameters is a second value for the same keyword. *)
Definition format_command (float_str : Float64.float -> string) (template : string)
    (parameters : config) (seed : Z) : result string :=
  match parameters !! "seed" with
  | Some _ => Raise TypeError
  | None => format_from float_str (<["seed" := VInt seed]> parameters) template None
  end.

Definition is_space (ch : ascii) : bool :=
  is_char ch " "%char || is_char ch (ascii_of_nat 9) || is_char ch (ascii_of_nat 10)
  || is_char ch (ascii_of_nat 13).

Definition is_quoting (ch : ascii) : bool :=
  is_char ch (ascii_of_nat 34) || is_char ch (ascii_of_nat 39) || is_char ch (ascii_of_nat 92).

(** The words of [s]: [word] is the word being read, if one is. *)
Fixpoint words_from (s : string) (word : option string) : list string :=
  match s with
  | EmptyString => match word with Some w => [w] | None => [] end
  | String ch rest =>
      if is_space ch then
        match word with
        | Some w => w :: words_from rest None
        | None => words_from rest None
        end
      else
        words_from rest
          (Some (String.append (default EmptyString word) (String ch EmptyString)))
  end.

Fixpoint has_quoting (s : string) : bool :=
  match s with
  | EmptyString => false
  | String ch rest => is_quoting ch || has_quoting rest
  end.

(** [shlex.split(s)] for a line without quotes and backslashes: the words
    between white space. *)
Definition shlex_split (s : string) : result (list string) :=
  if has_quoting s then Raise (Unmodelled "shell quoting") else Ok (words_from s None).

(** [s.endswith(suffix)] *)
Definition ends_with (suffix s : string) : bool :=
  (String.length suffix <=? String.length s)%nat
  && String.eqb (substring (String.length s - String.length suffix) (String.length suffix) s)
       suffix.

Section GetGeneratorCommand.

Variable float_str : Float64.float -> string.
(** [str((Path(generators_dir) / name / program).resolve())], which
    depends on the working directory and the links of the file system. *)
Variable resolved : string -> string -> string -> string.
(** [sys.executable] *)
Variable sys_executable : string.

(** [Domain.get_generator_command(self, generators_dir, parameters, seed)] *)
Definition get_generator_command (self : Domain) (generators_dir : string)
    (parameters : config) (seed : Z) : result (list string) :=
  line ← format_command float_str (command_template self) parameters seed;
  command ← shlex_split line;
  match command with
  | [] => Raise IndexError
  | program :: arguments =>
      let program := resolved generators_dir (name self) program in
      if ends_with ".py" program then Ok (sys_executable :: program :: arguments)
      else Ok (program :: arguments)
  end.

End GetGeneratorCommand.

End Command.
Import Command.


(** ** Every placeholder has its value *)

(** Whether formatting succeeds depends on which keys there are, not on
    their values nor on how floats are written. *)
Lemma format_from_keys (f1 f2 : Float64.float -> string) (kw1 kw2 : gmap string value)
    (template : string) (open : option string) :
  (forall k, is_Some (kw1 !! k) <-> is_Some (kw2 !! k)) ->
  is_ok (format_from f1 kw1 template open) = is_ok (format_from f2 kw2 template open).
Proof.
  intros Hkeys.
  assert (Hbind : forall (r1 r2 : result string) (g1 g2 : string -> string),
            is_ok r1 = is_ok r2 ->
            is_ok (r1 ≫= fun s => mret (g1 s)) = is_ok (r2 ≫= fun s => mret (g2 s))).
  { intros [s1|e1] [s2|e2] g1 g2; done. }
  remember (String.length template) as n eqn:Hn.
  revert template open Hn.
  induction n as [n IH] using lt_wf_ind. intros template open Hn.
  destruct template as [|ch rest]; cbn [format_from]; [by destruct open|].
  cbn [String.length] in Hn.
  destruct open as [field|].
  - destruct (is_char ch "}").
    + destruct field as [|a field]; [done|].
      destruct (all_digits (String a field)); [by destruct (_ <=? _)%nat|].
      pose proof (Hkeys (String a field)) as Hk.
      destruct (kw1 !! String a field) as [v1|], (kw2 !! String a field) as [v2|].
      * apply Hbind. apply (IH (String.length rest)); [lia|done].
      * destruct Hk as [Hk _]. by destruct Hk.
      * destruct Hk as [_ Hk]. by destruct Hk.
      * done.
    + destruct (is_char ch "{"); [done|].
      destruct (beyond_a_name ch); [done|].
      apply (IH (String.length rest)); [lia|done].
  - destruct (is_char ch "{").
    + destruct rest as [|ch' rest']; [done|].
      cbn [String.length] in Hn.
      destruct (is_char ch' "{").
      * apply Hbind. apply (IH (String.length rest')); [lia|done].
      * apply (IH (String.length (String ch' rest'))); [cbn; lia|done].
    + destruct (is_char ch "}").
      * destruct rest as [|ch' rest']; [done|].
        cbn [String.length] in Hn.
        destruct (is_char ch' "}"); [|done].
        apply Hbind. apply (IH (String.length rest')); [lia|done].
      * apply Hbind. apply (IH (String.length rest)); [lia|done].
Qed.

Lemma format_command_keys (f1 f2 : Float64.float -> string) (template : string)
    (c1 c2 : config) (seed1 seed2 : Z) :
  (forall k, is_Some (c1 !! k) <-> is_Some (c2 !! k)) ->
  is_ok (format_command f1 template c1 seed1) = is_ok (format_command f2 template c2 seed2).
Proof.
  intros Hkeys. unfold format_command.
  pose proof (Hkeys "seed") as Hseed.
  destruct (c1 !! "seed") as [v1|], (c2 !! "seed") as [v2|].
  - done.
  - destruct Hseed as [Hseed _]. by destruct Hseed.
  - destruct Hseed as [_ Hseed]. by destruct Hseed.
  - apply format_from_keys. intros k.
    destruct (decide (k = "seed")) as [->|Hne].
    + by rewrite !lookup_insert_eq.
    + by rewrite !lookup_insert_ne.
Qed.

(** A dict with the given keys. *)
Definition with_keys (names : list string) : config :=
  foldr (fun n m => <[n := VInt 0]> m) ∅ names.

Lemma with_keys_lookup (names : list string) (k : string) :
  is_Some (with_keys names !! k) <-> k ∈ names.
Proof.
  induction names as [|n names IH]; cbn.
  - rewrite lookup_empty. split; [by intros []|by intros ?%elem_of_nil].
  - rewrite elem_of_cons. destruct (decide (k = n)) as [->|Hne].
    + rewrite lookup_insert_eq. split; [by left|by eexists].
    + rewrite lookup_insert_ne by done. rewrite IH. intuition congruence.
Qed.

Lemma product_keys (axes : list (string * list value)) (c : config) (k : string) :
  c ∈ product axes -> is_Some (c !! k) <-> k ∈ axes.*1.
Proof.
  revert c. induction axes as [|[n vs] axes IH]; intros c; cbn.
  - intros ->%list_elem_of_singleton. rewrite lookup_empty.
    split; [by intros []|by intros ?%elem_of_nil].
  - intros Hc. apply list_elem_of_bind in Hc as (v & Hc & _).
    apply list_elem_of_fmap in Hc as (c0 & -> & Hc0).
    rewrite elem_of_cons. destruct (decide (k = n)) as [->|Hne].
    + rewrite lookup_insert_eq. split; [by left|by eexists].
    + rewrite lookup_insert_ne by done. rewrite (IH c0 Hc0). intuition congruence.
Qed.

Lemma axes_of_names (values_of : hyperparameter -> result (list value))
    (cs : list hyperparameter) (axes : list (string * list value)) :
  axes_of values_of cs = Ok axes -> axes.*1 = hp_name <$> cs.
Proof.
  intros Haxes. apply axes_of_spec in Haxes.
  induction Haxes as [|hp ax cs axes [Hname _] _ IH]; [done|].
  cbn. by rewrite IH, Hname.
Qed.

(** The check, for one domain: every configuration of the grid that the
    rule returns (or, without a rule, a dict with the names of the
    parameters as keys) formats. *)
Definition placeholders_supplied (d : Domain) : bool :=
  match _adapt_parameters d with
  | None =>
      is_ok (format_command (fun _ => EmptyString) (command_template d)
               (with_keys (hp_name <$> attributes d)) 0)
  | Some rule =>
      match enumerated_grid (attributes d) with
      | Ok grid =>
          forallb (fun c => match rule c with
                            | (c', Ok _) =>
                                is_ok (format_command (fun _ => EmptyString)
                                         (command_template d) c' 0)
                            | (_, Raise _) => true
                            end) grid
      | Raise _ => false
      end
  end.

Lemma registry_placeholders_supplied :
  match DOMAINS with
  | Ok ds => forallb placeholders_supplied ds
  | Raise _ => false
  end = true.
Proof. vm_compute. reflexivity. Qed.

(** X16.  For every domain of the registry, every configuration of its grid that
    its rule accepts, and every seed, the command template formats: each
    placeholder is [seed] or a key of the adapted configuration, no
    configuration has a key [seed], and the braces are well formed.  (For
    grid and maintenance this rests on the rule, which adds the keys
    [keys], [locks], [planes], [mechanics], [cities] and [visits] that are
    no parameters of the grid.) *)
Theorem registered_templates_format (float_str : Float64.float -> string)
    (domain_name : string) (d : Domain) (grid : list config) (c c' : config) (seed : Z) :
  get_domain domain_name = Ok d ->
  enumerated_grid (attributes d) = Ok grid ->
  c ∈ grid ->
  adapted d c = Ok c' ->
  exists line, format_command float_str (command_template d) c' seed = Ok line.
Proof.
  intros Hd Hgrid Hc Hadapted.
  assert (Hok : is_ok (format_command float_str (command_template d) c' seed) = true).
  2: { destruct (format_command float_str (command_template d) c' seed) as [line|e].
       - by exists line.
       - discriminate Hok. }
  destruct (get_domain_registered _ _ Hd) as (ds & Hds & Hin).
  pose proof registry_placeholders_supplied as Hall.
  rewrite Hds in Hall.
  rewrite forallb_forall in Hall.
  specialize (Hall d Hin).
  unfold placeholders_supplied in Hall.
  unfold adapted, rule_on in Hadapted.
  destruct (_adapt_parameters d) as [rule|].
  - rewrite Hgrid in Hall. rewrite forallb_forall in Hall.
    specialize (Hall c (proj1 (list_elem_of_In _ _) Hc)).
    destruct (rule c) as [c1 [[]|e]]; [|discriminate Hadapted].
    injection Hadapted as ->.
    etrans; [|exact Hall]. apply format_command_keys. reflexivity.
  - injection Hadapted as <-. etrans; [|exact Hall].
    apply format_command_keys. intros k. rewrite with_keys_lookup.
    unfold enumerated_grid, generate_grid, mbind, result_bind in Hgrid.
    destruct (build_num_steps_dict (attributes d) ∅) as [num_steps_dict|e];
      [|discriminate Hgrid].
    destruct (attributes d) as [|hp cs]; [discriminate Hgrid|].
    destruct (axes_of (value_set num_steps_dict) (hp :: cs)) as [axes|e] eqn:Haxes;
      [|discriminate Hgrid].
    injection Hgrid as <-.
    rewrite (product_keys axes c k Hc). rewrite (axes_of_names _ _ _ Haxes). reflexivity.
Qed.

Definition maintenance_adapted : config :=
  <["visits" := VInt 5]> (<["cities" := VInt 3]> (<["mechanics" := VInt 1]>
    (<["planes" := VInt 180]> {[ "days" := VInt 60 ]}))).

Lemma registered_templates_format_witness :
  exists line,
    format_command (fun _ => EmptyString) (command_template maintenance_domain)
      maintenance_adapted 7 = Ok line.
Proof.
  refine (registered_templates_format (fun _ => EmptyString) "maintenance" maintenance_domain _
            {[ "days" := VInt 60 ]} maintenance_adapted 7
            get_domain_maintenance eq_refl _ eq_refl).
  apply list_elem_of_here.
Defined.

(** The command lines of three domains.  An empty value leaves no empty
    argument behind (agricola), and a generator that is a Python script is
    run by the interpreter. *)
Example command_lines :
  let resolved g n p := String.append g (String.append "/" (String.append n (String.append "/" p))) in
  get_generator_command (fun _ => EmptyString) resolved "python3" ferry "generators"
    {[ "locations" := VInt 3; "cars" := VInt 12 ]} 0
  = Ok ["generators/ferry/ferry"; "-l"; "3"; "-c"; "12"; "-s"; "0"]
  /\ get_generator_command (fun _ => EmptyString) resolved "python3" barman "generators"
       {[ "cocktails" := VInt 3; "shots" := VInt 4; "ingredients" := VInt 2 ]} 1
     = Ok ["python3"; "generators/barman/barman-generator.py"; "3"; "2"; "4"; "1"]
  /\ (d ← get_domain "agricola";
      get_generator_command (fun _ => EmptyString) resolved "python3" d "generators"
        {[ "stages" := VInt 3; "workers" := VInt 4; "all_workers_flag" := VStr EmptyString ]} 2)
     = Ok ["python3"; "generators/agricola/GenAgricola.py"; "3"; "2"; "--num_workers"; "4"].
Proof. vm_compute. repeat split; reflexivity. Qed.

(** Whether formatting the template of [d] with the configuration [c] as it
    comes from the grid raises [KeyError] for the placeholder [key]. *)
Definition lacks (d : Domain) (key : string) (c : config) : bool :=
  match format_command (fun _ => EmptyString) (command_template d) c 0 with
  | Raise (KeyError k) => String.eqb k key
  | _ => false
  end.

Lemma unadapted_grids_lack :
  match enumerated_grid (attributes grid_domain),
        enumerated_grid (attributes maintenance_domain) with
  | Ok g, Ok m => forallb (lacks grid_domain "keys") g
                  && forallb (lacks maintenance_domain "planes") m
  | _, _ => false
  end = true.
Proof. vm_compute. reflexivity. Qed.

Lemma format_from_raises_same (f1 f2 : Float64.float -> string) (kw1 kw2 : gmap string value)
    (template : string) (open : option string) (e : exn) :
  (forall k, is_Some (kw1 !! k) <-> is_Some (kw2 !! k)) ->
  format_from f1 kw1 template open = Raise e ->
  format_from f2 kw2 template open = Raise e.
Proof.
  intros Hkeys.
  assert (Hbind : forall (r1 r2 : result string) (g1 g2 : string -> string),
            (r1 = Raise e -> r2 = Raise e) ->
            is_ok r1 = is_ok r2 ->
            (r1 ≫= fun s => mret (g1 s)) = Raise e ->
            (r2 ≫= fun s => mret (g2 s)) = Raise e).
  { intros [s1|e1] [s2|e2] g1 g2 Hsame Hok; cbn; try discriminate; auto. }
  remember (String.length template) as n eqn:Hn.
  revert template open Hn.
  induction n as [n IH] using lt_wf_ind. intros template open Hn.
  destruct template as [|ch rest]; cbn [format_from]; [by destruct open|].
  cbn [String.length] in Hn.
  destruct open as [field|].
  - destruct (is_char ch "}").
    + destruct field as [|a field]; [auto|].
      destruct (all_digits (String a field)); [destruct (_ <=? _)%nat; auto|].
      pose proof (Hkeys (String a field)) as Hk.
      destruct (kw1 !! String a field) as [v1|], (kw2 !! String a field) as [v2|].
      * apply Hbind; [apply (IH (String.length rest)); [lia|reflexivity]|].
        by apply format_from_keys.
      * destruct Hk as [Hk _]. by destruct Hk.
      * destruct Hk as [_ Hk]. by destruct Hk.
      * auto.
    + destruct (is_char ch "{"); [auto|].
      destruct (beyond_a_name ch); [auto|].
      apply (IH (String.length rest)); [lia|reflexivity].
  - destruct (is_char ch "{").
    + destruct rest as [|ch' rest']; [auto|].
      cbn [String.length] in Hn.
      destruct (is_char ch' "{").
      * apply Hbind; [apply (IH (String.length rest')); [lia|reflexivity]|].
        by apply format_from_keys.
      * apply (IH (String.length (String ch' rest'))); [cbn; lia|reflexivity].
    + destruct (is_char ch "}").
      * destruct rest as [|ch' rest']; [auto|].
        cbn [String.length] in Hn.
        destruct (is_char ch' "}"); [|auto].
        apply Hbind; [apply (IH (String.length rest')); [lia|reflexivity]|].
        by apply format_from_keys.
      * apply Hbind; [apply (IH (String.length rest)); [lia|reflexivity]|].
        by apply format_from_keys.
Qed.

(** X17.  The command of grid and maintenance cannot be built from a
    configuration as the grid has it: for every configuration of their
    grids and every seed, formatting the template raises [KeyError], for
    [keys] and for [planes], the first placeholders that only the rule
    provides.  It is [adapt_parameters] that makes these commands
    possible. *)
Theorem commands_need_the_rule (float_str : Float64.float -> string) (d : Domain)
    (key : string) (grid : list config) (c : config) (seed : Z) :
  (d = grid_domain /\ key = "keys") \/ (d = maintenance_domain /\ key = "planes") ->
  enumerated_grid (attributes d) = Ok grid ->
  c ∈ grid ->
  format_command float_str (command_template d) c seed = Raise (KeyError key).
Proof.
  intros Hd Hgrid Hc. apply list_elem_of_In in Hc.
  pose proof unadapted_grids_lack as Hall.
  assert (Hlacks : lacks d key c = true).
  { destruct Hd as [[-> ->]|[-> ->]]; rewrite Hgrid in Hall.
    - destruct (enumerated_grid (attributes maintenance_domain)); [|discriminate Hall].
      apply andb_true_iff in Hall as [Hall _].
      rewrite forallb_forall in Hall. exact (Hall c Hc).
    - destruct (enumerated_grid (attributes grid_domain)); [|discriminate Hall].
      apply andb_true_iff in Hall as [_ Hall].
      rewrite forallb_forall in Hall. exact (Hall c Hc). }
  clear Hall Hd Hgrid Hc. unfold lacks, format_command in *.
  destruct (c !! "seed") as [v|]; [discriminate Hlacks|].
  destruct (format_from _ _ _ _) as [line|e] eqn:Hrun; [discriminate Hlacks|].
  destruct e as [k| | | | | | | | | | | | |]; try discriminate Hlacks.
  apply String.eqb_eq in Hlacks. subst k.
  revert Hrun. apply format_from_raises_same. intros k.
  destruct (decide (k = "seed")) as [->|Hne].
  - rewrite !lookup_insert_eq. split; intros _; by eexists.
  - by rewrite !lookup_insert_ne.
Qed.

Lemma commands_need_the_rule_witness :
  format_command (fun _ => EmptyString) (command_template maintenance_domain)
    {[ "days" := VInt 60 ]} 3 = Raise (KeyError "planes").
Proof.
  refine (commands_need_the_rule (fun _ => EmptyString) maintenance_domain "planes" _
            {[ "days" := VInt 60 ]} 3 (or_intror (conj eq_refl eq_refl)) eq_refl _).
  apply list_elem_of_here.
Defined.

(* ===================================================================== *)
(** * The registry as a dict *)
(* ===================================================================== *)

Lemma find_by_name (l : list Domain) (d : Domain) :
  NoDup (name <$> l) -> In d l ->
  find (fun x => String.eqb (name x) (name d)) l = Some d.
Proof.
  induction l as [|x l IH]; cbn; [intros _ []|].
  intros Hnodup [->|Hin].
  - by rewrite String.eqb_refl.
  - apply NoDup_cons in Hnodup as [Hx Hl].
    destruct (String.eqb_spec (name x) (name d)) as [Heq|_]; [|by apply IH].
    destruct Hx. rewrite Heq. apply list_elem_of_fmap. exists d.
    split; [reflexivity|]. by apply list_elem_of_In.
Qed.

Lemma fmap_rev {A B} (f : A -> B) (l : list A) : f <$> rev l = rev (f <$> l).
Proof. induction l as [|x l IH]; cbn; [done|]. by rewrite fmap_app, IH. Qed.

(** X18.  [get_domains()] builds a dict keyed by name from the list, so a name
    used twice would hide the earlier domain.  It is not: the 27 names are
    distinct, every domain of the list is the one that its name selects,
    and what a name selects has that name. *)
Theorem every_domain_is_selected_by_its_name (ds : list Domain) (d : Domain)
    (domain_name : string) :
  DOMAINS = Ok ds ->
  NoDup (name <$> ds)
  /\ (In d ds -> get_domain (name d) = Ok d)
  /\ (get_domain domain_name = Ok d -> name d = domain_name /\ In d ds).
Proof.
  intros Hds.
  assert (Hnodup : NoDup (name <$> ds)).
  { pose proof DOMAINS_names as Hnames. rewrite Hds in Hnames. cbn in Hnames.
    injection Hnames as ->. apply (bool_decide_unpack _). vm_compute. exact I. }
  split; [exact Hnodup|]. split.
  - intros Hin. unfold get_domain. rewrite Hds. cbn [mbind result_bind].
    rewrite find_by_name; [reflexivity| |by apply in_rev in Hin].
    rewrite fmap_rev. by apply NoDup_ListNoDup, List.NoDup_rev, NoDup_ListNoDup.
  - unfold get_domain. rewrite Hds. cbn [mbind result_bind].
    destruct (find _ (rev ds)) as [d'|] eqn:Hfind; [|discriminate].
    intros [= ->]. apply find_some in Hfind as [Hin Hname].
    split; [by apply String.eqb_eq|by apply in_rev].
Qed.

Lemma every_domain_is_selected_by_its_name_witness :
  name ferry = "ferry"
  /\ In ferry (match DOMAINS with Ok ds => ds | Raise _ => [] end).
Proof.
  exact (proj2 (proj2 (every_domain_is_selected_by_its_name
                  (match DOMAINS with Ok ds => ds | Raise _ => [] end) ferry "ferry" eq_refl))
           get_domain_ferry).
Defined.
